(** * copilotfeedback: the diff parser, the comment store and the feedback
    emitter, embedded from [parser.py], [models.py], [app.py] and
    [output.py].

    Conventions of the embedding.
    - A Python [str] is a [string]; a character stands for one code point
      below 256, which is where the whitespace and digit tables below are
      exact.
    - A Python [int] is a [Z]; [int | None] is [option Z].
    - A Python exception is the [Raise] case of [Py.result].
    - A Python [dict] is an association list in insertion order, because
      [generate_feedback] iterates over [dict.items()].
    - What the Textual widgets do on screen (mounting, focus, notifications)
      is left out; only the fields of [DiffReviewApp] that the handlers read
      and write are kept. *)

From Stdlib Require Import ZArith Lia Ascii.
From stdpp Require Import base option list strings.

(** ** Python primitives *)

Module Py.

Inductive exn : Type := ValueError | IndexError | KeyError.

Inductive result (A : Type) : Type :=
| Ok (a : A)
| Raise (e : exn).
Global Arguments Ok {A} a.
Global Arguments Raise {A} e.

Definition bind {A B : Type} (r : result A) (k : A -> result B) : result B :=
  match r with
  | Ok a => k a
  | Raise e => Raise e
  end.

(** [for x in xs: body], with the loop state threaded through. *)
Fixpoint for_each {A S : Type} (body : S -> A -> result S) (xs : list A) (s : S)
  : result S :=
  match xs with
  | [] => Ok s
  | x :: xs' => bind (body s x) (for_each body xs')
  end.

(** *** str *)

(** [s.startswith(prefix)] *)
Fixpoint startswith (s prefix : string) {struct prefix} : bool :=
  match prefix with
  | EmptyString => true
  | String p prefix' =>
      match s with
      | EmptyString => false
      | String c s' => if decide (c = p) then startswith s' prefix' else false
      end
  end.

(** [s[n:]] for [n >= 0] *)
Fixpoint slice_from (n : nat) (s : string) : string :=
  match n with
  | O => s
  | S n' =>
      match s with
      | EmptyString => EmptyString
      | String _ s' => slice_from n' s'
      end
  end.

(** [sub in s] *)
Fixpoint contains (s sub : string) : bool :=
  startswith s sub ||
  match s with
  | EmptyString => false
  | String _ s' => contains s' sub
  end.

(** The code points below 256 that [str.strip()] removes:
    TAB LF VT FF CR, FS GS RS US, SPACE, NEL (0x85) and NBSP (0xA0). *)
Definition isspace (c : ascii) : bool :=
  let n := N_of_ascii c in
  ((9 <=? n) && (n <=? 13) || (28 <=? n) && (n <=? 32)
   || (n =? 133) || (n =? 160))%N.

Fixpoint lstrip (s : string) : string :=
  match s with
  | EmptyString => EmptyString
  | String c s' => if isspace c then lstrip s' else s
  end.

Fixpoint rstrip (s : string) : string :=
  match s with
  | EmptyString => EmptyString
  | String c s' =>
      match rstrip s' with
      | EmptyString => if isspace c then EmptyString else String c EmptyString
      | r => String c r
      end
  end.

(** [s.strip()] *)
Definition strip (s : string) : string := rstrip (lstrip s).

(** [s.split(sep)] for a non-empty [sep]: the pieces between the
    occurrences of [sep], found left to right without overlap.  [skip]
    counts the characters of a separator still to be passed over. *)
Fixpoint split_from (sep : string) (skip : nat) (s : string) : list string :=
  match s with
  | EmptyString => [EmptyString]
  | String c s' =>
      match skip with
      | S k => split_from sep k s'
      | O =>
          if startswith s sep
          then EmptyString :: split_from sep (String.length sep - 1) s'
          else match split_from sep 0 s' with
               | piece :: pieces => String c piece :: pieces
               | [] => [String c EmptyString]
               end
      end
  end.

Definition split (s sep : string) : list string := split_from sep 0 s.

(** [xs[i]] for [i >= 0] *)
Definition getitem {A : Type} (xs : list A) (i : nat) : result A :=
  match xs !! i with
  | Some x => Ok x
  | None => Raise IndexError
  end.

(** *** int *)

Definition isdigit (c : ascii) : bool :=
  let n := N_of_ascii c in ((48 <=? n) && (n <=? 57))%N.

(** Every character of [s] is in the class [cls]. *)
Fixpoint all_chars (cls : ascii -> bool) (s : string) : bool :=
  match s with
  | EmptyString => true
  | String c s' => cls c && all_chars cls s'
  end.

Definition all_digits (s : string) : bool := all_chars isdigit s.

Fixpoint int_digits (acc : Z) (s : string) : Z :=
  match s with
  | EmptyString => acc
  | String c s' => int_digits (10 * acc + (Z.of_N (N_of_ascii c) - 48)) s'
  end.

(** The interpreter's limit on the length of a decimal string given to
    [int()] ([sys.get_int_max_str_digits()], 4300 unless reconfigured). *)
Definition int_max_str_digits : Z := 4300.

(** [int(s)] for the strings the parser passes, which are runs of decimal
    digits: the value, or [ValueError] when the run is longer than the
    interpreter converts.  (Anything that is not a run of digits is
    reported as [ValueError] too; the parser never passes one.) *)
Definition int (s : string) : result Z :=
  if all_digits s && negb (bool_decide (s = EmptyString)) then
    if (Z.of_nat (String.length s) <=? int_max_str_digits)%Z
    then Ok (int_digits 0 s)
    else Raise ValueError
  else Raise ValueError.

(** [a or b] on [int | None]: [None] and [0] are falsy. *)
Definition or_ (a b : option Z) : option Z :=
  match a with
  | Some n => if (n =? 0)%Z then b else a
  | None => b
  end.

(** *** dict *)

(** Keys are kept once; a new key goes to the end, an existing key keeps
    its place. *)
Definition dict (K V : Type) : Type := list (K * V).

Section Dict.
Context {K V : Type} `{EqDecision K}.

Definition dict_empty : dict K V := [].

(** [d.get(k)] *)
Fixpoint dict_get (d : dict K V) (k : K) : option V :=
  match d with
  | [] => None
  | (k', v) :: d' => if decide (k' = k) then Some v else dict_get d' k
  end.

(** [d[k]] *)
Definition dict_getitem (d : dict K V) (k : K) : result V :=
  match dict_get d k with
  | Some v => Ok v
  | None => Raise KeyError
  end.

(** [d[k] = v] *)
Fixpoint dict_set (d : dict K V) (k : K) (v : V) : dict K V :=
  match d with
  | [] => [(k, v)]
  | (k', v') :: d' =>
      if decide (k' = k) then (k', v) :: d' else (k', v') :: dict_set d' k v
  end.

(** [d.items()] *)
Definition dict_items (d : dict K V) : list (K * V) := d.

(** [k in d] *)
Definition dict_contains (d : dict K V) (k : K) : bool :=
  match dict_get d k with
  | Some _ => true
  | None => false
  end.

(** The entries of [d] without the one under [k]. *)
Fixpoint dict_remove (d : dict K V) (k : K) : dict K V :=
  match d with
  | [] => []
  | (k', v') :: d' =>
      if decide (k' = k) then d' else (k', v') :: dict_remove d' k
  end.

(** [del d[k]] *)
Definition dict_delitem (d : dict K V) (k : K) : result (dict K V) :=
  match dict_get d k with
  | Some _ => Ok (dict_remove d k)
  | None => Raise KeyError
  end.
End Dict.

End Py.

Notation "x <- e ;; k" := (Py.bind e (fun x => k))
  (at level 100, e at next level, k at level 200, right associativity).

(** ** The regular expressions [parser.py] uses *)

Module re.

(** Character classes. *)
Definition digit : ascii -> bool := Py.isdigit.            (* \d *)
Definition dot (c : ascii) : bool := negb (bool_decide (c = "010"%char)). (* . *)

(** The pattern language: literal text, [c?], [cls*], [cls+] and a
    capturing group around one of these. *)
Inductive item : Type :=
| Lit (text : string)
| Opt (c : ascii)
| Star (cls : ascii -> bool)
| Plus (cls : ascii -> bool)
| Cap (i : item).

Definition pattern : Type := list item.

(** The groups captured so far, in the order their parentheses close (for
    groups that do not nest, the order of their numbers). *)
Definition captures : Type := list string.

(** Continuations receive the text an item consumed, the text left and the
    captures; [None] makes the matcher back up to the last choice. *)
Definition cont : Type := string -> string -> captures -> option captures.

(** Greedy repetition: the longest run first, then one character fewer at a
    time. *)
Fixpoint match_star (cls : ascii -> bool) (s : string) (caps : captures) (k : cont)
  : option captures :=
  match s with
  | String c s' =>
      if cls c then
        match match_star cls s' caps (fun used rest => k (String c used) rest) with
        | Some r => Some r
        | None => k EmptyString s caps
        end
      else k EmptyString s caps
  | EmptyString => k EmptyString EmptyString caps
  end.

Fixpoint match_item (i : item) (s : string) (caps : captures) (k : cont)
  : option captures :=
  match i with
  | Lit text =>
      if Py.startswith s text
      then k text (Py.slice_from (String.length text) s) caps
      else None
  | Opt c =>
      match s with
      | String c' s' =>
          if decide (c' = c) then
            match k (String c EmptyString) s' caps with
            | Some r => Some r
            | None => k EmptyString s caps
            end
          else k EmptyString s caps
      | EmptyString => k EmptyString EmptyString caps
      end
  | Star cls => match_star cls s caps k
  | Plus cls =>
      match s with
      | String c s' =>
          if cls c
          then match_star cls s' caps (fun used rest => k (String c used) rest)
          else None
      | EmptyString => None
      end
  | Cap i' =>
      match_item i' s caps (fun used rest caps' => k used rest (caps' ++ [used]))
  end.

Fixpoint match_seq (p : pattern) (s : string) (caps : captures) : option captures :=
  match p with
  | [] => Some caps
  | i :: p' => match_item i s caps (fun _ rest caps' => match_seq p' rest caps')
  end.

(** [re.match(p, s)]: anchored at the start of [s], free at its end. *)
Definition match_ (p : pattern) (s : string) : option captures := match_seq p s [].

(** [m.group(n)] for [n >= 1] *)
Definition group (m : captures) (n : nat) : Py.result string :=
  Py.getitem m (n - 1).

End re.

(** ** models.py *)

Module DiffLine.
Record t : Type := Build {
  line_type : string;   (* ' ', '+', '-', '@' *)
  content : string;
  old_line_no : option Z;
  new_line_no : option Z;
  file_path : string;
  hunk_header : string
}.

(** The dataclass [__eq__]: field by field. *)
#[global] Instance eq_dec : EqDecision t.
Proof. solve_decision. Defined.
End DiffLine.

Module Comment.
Record t : Type := Build {
  file : string;
  line_no : option Z;
  hunk : string;
  content : string;
  context : string
}.
End Comment.

Module DiffFile.
Record t : Type := Build {
  path : string;
  lines : list DiffLine.t;
  comments : Py.dict nat Comment.t
}.

(** [DiffFile(path=path)] *)
Definition new (path : string) : t := Build path [] Py.dict_empty.
End DiffFile.

Module Diff.
Record t : Type := Build {
  files : list DiffFile.t
}.
End Diff.

(** ** parser.py *)

Module parser.

(** r"@@ -(\d+),?\d* \+(\d+),?\d* @@.*" *)
Definition hunk_pattern : re.pattern :=
  [ re.Lit "@@ -"; re.Cap (re.Plus re.digit); re.Opt ","; re.Star re.digit;
    re.Lit " +"; re.Cap (re.Plus re.digit); re.Opt ","; re.Star re.digit;
    re.Lit " @@"; re.Star re.dot ].

(** The local variables of [parse_diff] that live across loop rounds. *)
Record state : Type := State {
  diff : Diff.t;
  current_file : option DiffFile.t;
  current_hunk : string;
  old_line_no : Z;
  new_line_no : Z
}.

Definition initial : state := State (Diff.Build []) None "" 0 0.

(** [current_file.lines.append(diff_line)] *)
Definition append_line (f : DiffFile.t) (l : DiffLine.t) : DiffFile.t :=
  DiffFile.Build (DiffFile.path f) (DiffFile.lines f ++ [l]) (DiffFile.comments f).

(** [diff.files.append(current_file)] under [if current_file:]; a
    [DiffFile] object is always truthy, so the test is [is not None]. *)
Definition append_current (d : Diff.t) (cur : option DiffFile.t) : Diff.t :=
  match cur with
  | Some f => Diff.Build (Diff.files d ++ [f])
  | None => d
  end.

(** [line.split("@@")[1].strip() if "@@" in line else line] *)
Definition hunk_range (line : string) : Py.result string :=
  if Py.contains line "@@"
  then piece <- Py.getitem (Py.split line "@@") 1 ;;
       Py.Ok (Py.strip piece)
  else Py.Ok line.

(** The [if match:] block of the hunk-header branch. *)
Definition read_hunk (st : state) (line : string) : Py.result state :=
  match re.match_ hunk_pattern line with
  | Some m =>
      g1 <- re.group m 1 ;;
      old <- Py.int g1 ;;
      g2 <- re.group m 2 ;;
      new <- Py.int g2 ;;
      hunk <- hunk_range line ;;
      Py.Ok (State (diff st) (current_file st) hunk old new)
  | None => Py.Ok st
  end.

(** One round of the loop [for line in lines:]. *)
Definition parse_line (st : state) (line : string) : Py.result state :=
  if Py.startswith line "diff --git" then
    Py.Ok (State (append_current (diff st) (current_file st)) None
             (current_hunk st) (old_line_no st) (new_line_no st))
  else if Py.startswith line "+++" then
    let path := Py.strip (Py.slice_from 4 line) in
    let path := if Py.startswith path "b/" then Py.slice_from 2 path else path in
    Py.Ok (State (diff st) (Some (DiffFile.new path))
             (current_hunk st) (old_line_no st) (new_line_no st))
  else if Py.startswith line "@@" then
    st <- read_hunk st line ;;
    match current_file st with
    | Some f =>
        let diff_line :=
          DiffLine.Build "@" line None None (DiffFile.path f) line in
        Py.Ok (State (diff st) (Some (append_line f diff_line))
                 (current_hunk st) (old_line_no st) (new_line_no st))
    | None => Py.Ok st
    end
  else
    match current_file st with
    | Some f =>
        if bool_decide (line = "") then Py.Ok st
        else if Py.startswith line "+" then
          let diff_line :=
            DiffLine.Build "+" (Py.slice_from 1 line) None (Some (new_line_no st))
              (DiffFile.path f) (current_hunk st) in
          Py.Ok (State (diff st) (Some (append_line f diff_line))
                   (current_hunk st) (old_line_no st) (new_line_no st + 1))
        else if Py.startswith line "-" then
          let diff_line :=
            DiffLine.Build "-" (Py.slice_from 1 line) (Some (old_line_no st)) None
              (DiffFile.path f) (current_hunk st) in
          Py.Ok (State (diff st) (Some (append_line f diff_line))
                   (current_hunk st) (old_line_no st + 1) (new_line_no st))
        else if Py.startswith line " " then
          let diff_line :=
            DiffLine.Build " " (Py.slice_from 1 line)
              (Some (old_line_no st)) (Some (new_line_no st))
              (DiffFile.path f) (current_hunk st) in
          Py.Ok (State (diff st) (Some (append_line f diff_line))
                   (current_hunk st) (old_line_no st + 1) (new_line_no st + 1))
        else Py.Ok st
    | None => Py.Ok st
    end.

Definition LF : string := String "010"%char EmptyString.

(** What follows the loop: the last file, if one is open, is appended. *)
Definition finish (st : state) : Diff.t :=
  append_current (diff st) (current_file st).

Definition parse_lines (lines : list string) (st : state) : Py.result state :=
  Py.for_each parse_line lines st.

Definition parse_diff (diff_text : string) : Py.result Diff.t :=
  st <- parse_lines (Py.split diff_text LF) initial ;;
  Py.Ok (finish st).

End parser.

(** ** output.py *)

(** One element of the [comments] list of the feedback record. *)
Module Entry.
Record t : Type := Build {
  file : string;
  line : option Z;
  hunk : string;
  content : string;
  context : string
}.
End Entry.

(** The [feedback] dictionary handed to [json.dump]. *)
Module Feedback.
Record t : Type := Build {
  timestamp : string;
  diff_command : string;
  comments : list Entry.t
}.
End Feedback.

Module output.

Definition entry_of (comment : Comment.t) : Entry.t :=
  Entry.Build (Comment.file comment) (Comment.line_no comment)
    (Comment.hunk comment) (Comment.content comment) (Comment.context comment).

(** The two nested loops that fill [comments]. *)
Definition collect (files : list DiffFile.t) : list Entry.t :=
  fold_left
    (fun comments file =>
       fold_left
         (fun comments item => comments ++ [entry_of item.2])
         (Py.dict_items (DiffFile.comments file)) comments)
    files [].

(** [now] stands for [datetime.now(UTC).isoformat()]; the result is the
    record that is written to [output_path]. *)
Definition generate_feedback (now : string) (diff : Diff.t) : Feedback.t :=
  Feedback.Build now "git diff HEAD" (collect (Diff.files diff)).

End output.

(** ** app.py *)

Module app.

(** The fields of [DiffReviewApp] its handlers read and write. *)
Record DiffReviewApp : Type := Build {
  diff : Diff.t;
  current_line_idx : nat;
  editing : bool;
  edit_line_idx : option nat;
  all_lines : list DiffLine.t;
  line_to_file : Py.dict nat nat
}.

(** The flattening loops of [__init__]. *)
Definition flatten (files : list DiffFile.t)
  : list DiffLine.t * Py.dict nat nat :=
  fold_left
    (fun acc entry =>
       fold_left
         (fun acc line =>
            (acc.1 ++ [line], Py.dict_set acc.2 (length acc.1) entry.1))
         (DiffFile.lines entry.2) acc)
    (imap pair files) ([], Py.dict_empty).

(** [DiffReviewApp(diff)] *)
Definition init (diff : Diff.t) : DiffReviewApp :=
  let flat := flatten (Diff.files diff) in
  Build diff 0 false None flat.1 flat.2.

(** [action_create_comment]; [focused] is the [index] of the focused
    [DiffLineWidget], or [None] when the focus is on something else. *)
Definition action_create_comment (self : DiffReviewApp) (focused : option nat)
  : DiffReviewApp :=
  if editing self then self
  else match focused with
       | None => self
       | Some index =>
           Build (diff self) (current_line_idx self) true (Some index)
             (all_lines self) (line_to_file self)
       end.

(** [action_cancel_edit] *)
Definition action_cancel_edit (self : DiffReviewApp) : DiffReviewApp :=
  if editing self
  then Build (diff self) (current_line_idx self) false None
         (all_lines self) (line_to_file self)
  else self.

(** The scan "find the line index within the file": the index of the first
    line equal to [line], and 0 when there is none. *)
Definition find_file_line_idx (lines : list DiffLine.t) (line : DiffLine.t) : nat :=
  match list_find (fun file_line => file_line = line) lines with
  | Some (i, _) => i
  | None => 0
  end.

(** [file.comments[file_line_idx] = comment] *)
Definition set_comment (file : DiffFile.t) (file_line_idx : nat) (comment : Comment.t)
  : DiffFile.t :=
  DiffFile.Build (DiffFile.path file) (DiffFile.lines file)
    (Py.dict_set (DiffFile.comments file) file_line_idx comment).

(** The [Comment(...)] built under "Create comment". *)
Definition make_comment (file : DiffFile.t) (line : DiffLine.t) (comment_text : string)
  : Comment.t :=
  Comment.Build (DiffFile.path file)
    (Py.or_ (DiffLine.new_line_no line) (DiffLine.old_line_no line))
    (DiffLine.hunk_header line) comment_text (DiffLine.content line).

(** [on_input_submitted]; [value] is [event.value]. *)
Definition on_input_submitted (self : DiffReviewApp) (value : string)
  : Py.result DiffReviewApp :=
  match editing self, edit_line_idx self with
  | true, Some idx =>
      let comment_text := Py.strip value in
      if bool_decide (comment_text = "") then Py.Ok (action_cancel_edit self)
      else
        file_idx <- Py.dict_getitem (line_to_file self) idx ;;
        file <- Py.getitem (Diff.files (diff self)) file_idx ;;
        line <- Py.getitem (all_lines self) idx ;;
        let file_line_idx := find_file_line_idx (DiffFile.lines file) line in
        let comment := make_comment file line comment_text in
        Py.Ok (Build
                 (Diff.Build (<[file_idx := set_comment file file_line_idx comment]>
                                (Diff.files (diff self))))
                 (current_line_idx self) false None
                 (all_lines self) (line_to_file self))
  | _, _ => Py.Ok self
  end.

(** A mounted [DiffLineWidget(diff_line, index)]. *)
Record DiffLineWidget : Type := Widget {
  diff_line : DiffLine.t;
  index : nat
}.

(** [self.can_focus = diff_line.line_type != "@"] *)
Definition can_focus (widget : DiffLineWidget) : bool :=
  negb (bool_decide (DiffLine.line_type (diff_line widget) = "@")).

(** What [on_mount] and [rebuild_view] mount into the container, in
    order: the header of a file (a [Static] whose text frames the path), a
    line widget, a comment widget. *)
Inductive mounted : Type :=
| FileHeader (path : string)
| LineWidget (widget : DiffLineWidget)
| CommentWidget (comment : Comment.t).

(** The loop "Add diff lines" over one file; [acc] is the widgets mounted so
    far and the running [line_idx]. *)
Definition mount_lines (file : DiffFile.t) (acc : list mounted * nat)
  : list mounted * nat :=
  fold_left
    (fun acc entry =>
       let ws := acc.1 ++ [LineWidget (Widget entry.2 acc.2)] in
       let ws :=
         match Py.dict_get (DiffFile.comments file) entry.1 with
         | Some comment => ws ++ [CommentWidget comment]
         | None => ws
         end in
       (ws, acc.2 + 1))
    (imap pair (DiffFile.lines file)) acc.

(** The widgets of the view, as [on_mount] and [rebuild_view] build it. *)
Definition build_view (diff : Diff.t) : list mounted :=
  (fold_left
     (fun acc file => mount_lines file (acc.1 ++ [FileHeader (DiffFile.path file)], acc.2))
     (Diff.files diff) ([], 0)).1.

(** [action_edit_comment]; [focused] is the focused [DiffLineWidget], if the
    focus is on one.  Beside the new state, the value the mounted [Input]
    starts with ([None] when no input is mounted). *)
Definition action_edit_comment (self : DiffReviewApp) (focused : option DiffLineWidget)
  : Py.result (DiffReviewApp * option string) :=
  if editing self then Py.Ok (self, None)
  else match focused with
       | None => Py.Ok (self, None)
       | Some widget =>
           file_idx <- Py.dict_getitem (line_to_file self) (index widget) ;;
           file <- Py.getitem (Diff.files (diff self)) file_idx ;;
           let file_line_idx :=
             find_file_line_idx (DiffFile.lines file) (diff_line widget) in
           if negb (Py.dict_contains (DiffFile.comments file) file_line_idx)
           then Py.Ok (self, None)
           else
             existing <- Py.dict_getitem (DiffFile.comments file) file_line_idx ;;
             Py.Ok (Build (diff self) (current_line_idx self) true
                      (Some (index widget)) (all_lines self) (line_to_file self),
                    Some (Comment.content existing))
       end.

(** [action_delete_comment] *)
Definition action_delete_comment (self : DiffReviewApp) (focused : option DiffLineWidget)
  : Py.result DiffReviewApp :=
  if editing self then Py.Ok self
  else match focused with
       | None => Py.Ok self
       | Some widget =>
           file_idx <- Py.dict_getitem (line_to_file self) (index widget) ;;
           file <- Py.getitem (Diff.files (diff self)) file_idx ;;
           let file_line_idx :=
             find_file_line_idx (DiffFile.lines file) (diff_line widget) in
           if Py.dict_contains (DiffFile.comments file) file_line_idx then
             comments <- Py.dict_delitem (DiffFile.comments file) file_line_idx ;;
             Py.Ok (Build
                      (Diff.Build
                         (<[file_idx := DiffFile.Build (DiffFile.path file)
                                          (DiffFile.lines file) comments]>
                            (Diff.files (diff self))))
                      (current_line_idx self) (editing self) (edit_line_idx self)
                      (all_lines self) (line_to_file self))
           else Py.Ok self
       end.

(** [action_quit_app]: the feedback record that is saved on quitting. *)
Definition action_quit_app (now : string) (self : DiffReviewApp) : Feedback.t :=
  output.generate_feedback now (diff self).

End app.

(** ** __init__.py *)

Module copilotfeedback.

(** How [main] ends when no exception escapes it. *)
Inductive outcome : Type :=
| NoChanges                       (* "No changes detected in git diff HEAD" *)
| NoFiles                         (* "No files to review" *)
| Review (a : app.DiffReviewApp). (* [app.run()] on this application *)

(** [main], given the text [get_git_diff()] returned.  The [except] clause
    prints the exception and raises it again. *)
Definition main (diff_text : string) : Py.result outcome :=
  if bool_decide (Py.strip diff_text = "") then Py.Ok NoChanges
  else
    diff <- parser.parse_diff diff_text ;;
    if bool_decide (Diff.files diff = []) then Py.Ok NoFiles
    else Py.Ok (Review (app.init diff)).

End copilotfeedback.

(** ** Vocabulary of the statements *)

(** [c * n] for a one-character string [c] *)
Fixpoint repeat_char (c : ascii) (n : nat) : string :=
  match n with
  | O => EmptyString
  | S n' => String c (repeat_char c n')
  end.

(** The lines of a text, joined the way [split] takes them apart. *)
Definition unlines (ls : list string) : string := String.concat parser.LF ls.

(** The scenario text of the specification. *)
Definition scenario_text : string :=
  unlines [ "diff --git a/x b/x"; "--- a/x"; "+++ b/x"; "@@ -1,2 +1,3 @@";
            " line1"; "-line2"; "+line2b"; "+line3"; "" ].

Definition scenario_lines : list DiffLine.t :=
  [ DiffLine.Build "@" "@@ -1,2 +1,3 @@" None None "x" "@@ -1,2 +1,3 @@";
    DiffLine.Build " " "line1" (Some 1%Z) (Some 1%Z) "x" "-1,2 +1,3";
    DiffLine.Build "-" "line2" (Some 2%Z) None "x" "-1,2 +1,3";
    DiffLine.Build "+" "line2b" None (Some 2%Z) "x" "-1,2 +1,3";
    DiffLine.Build "+" "line3" None (Some 3%Z) "x" "-1,2 +1,3" ].

Definition scenario_diff : Diff.t :=
  Diff.Build [ DiffFile.Build "x" scenario_lines Py.dict_empty ].

(** A document whose second line is a Context line with new-line number 0. *)
Definition zero_text : string := unlines [ "+++ b/x"; "@@ -5 +0 @@"; " ctx" ].

(** A hunk header whose old start has one digit more than [int()] takes. *)
Definition overlong_hunk : string :=
  "@@ -" +:+ repeat_char "1" 4301 +:+ " +1 @@".

(** Every record of the document a parser state would finish into. *)
Definition records (st : parser.state) : list DiffLine.t :=
  concat (DiffFile.lines <$> Diff.files (parser.finish st)).

(** The state with the file section in progress forgotten. *)
Definition without_current (st : parser.state) : parser.state :=
  parser.State (parser.diff st) None (parser.current_hunk st)
    (parser.old_line_no st) (parser.new_line_no st).

(** All lines of the files, in document order, as [__init__] lays them out. *)
Definition flat_lines (files : list DiffFile.t) : list DiffLine.t :=
  concat (DiffFile.lines <$> files).

(** The flattened index of position [p] of file [fi]. *)
Definition flat_index (files : list DiffFile.t) (fi p : nat) : nat :=
  length (flat_lines (take fi files)) + p.

(** The comment at a position of a file, if any: [file.comments.get(p)]. *)
Definition get_comment (d : Diff.t) (fi p : nat) : option Comment.t :=
  f ← Diff.files d !! fi; Py.dict_get (DiffFile.comments f) p.

(** The feedback entries of a list of files, file by file, each file's in
    the order of its [comments] dictionary. *)
Definition entries (files : list DiffFile.t) : list Entry.t :=
  f ← files; (fun item => output.entry_of item.2) <$> Py.dict_items (DiffFile.comments f).

(** A parser state inside the first hunk of a file [x]. *)
Definition open_state : parser.state :=
  parser.State (Diff.Build []) (Some (DiffFile.new "x")) "-1 +1" 1 1.

(** The marker line git prints after a last line without a newline. *)
Definition no_newline_marker : string := "\ No newline at end of file".

(** The three kinds of record a content line can produce. *)
Definition Added (f : DiffFile.t) (st : parser.state) (body : string) : DiffLine.t :=
  DiffLine.Build "+" body None (Some (parser.new_line_no st))
    (DiffFile.path f) (parser.current_hunk st).

Definition Removed (f : DiffFile.t) (st : parser.state) (body : string) : DiffLine.t :=
  DiffLine.Build "-" body (Some (parser.old_line_no st)) None
    (DiffFile.path f) (parser.current_hunk st).

Definition Context_ (f : DiffFile.t) (st : parser.state) (body : string) : DiffLine.t :=
  DiffLine.Build " " body (Some (parser.old_line_no st)) (Some (parser.new_line_no st))
    (DiffFile.path f) (parser.current_hunk st).

(** The state after record [r] went to the open file [f] and the counters
    moved by [dold] and [dnew]. *)
Definition recorded (st : parser.state) (f : DiffFile.t) (r : DiffLine.t) (dold dnew : Z)
  : parser.state :=
  parser.State (parser.diff st) (Some (parser.append_line f r))
    (parser.current_hunk st) (parser.old_line_no st + dold) (parser.new_line_no st + dnew).

(** A line of a section header that the loop passes over: no separator, no
    [+++] line and no hunk line. *)
Definition plain_line (l : string) : Prop :=
  Py.startswith l "diff --git" = false /\
  Py.startswith l "+++" = false /\
  Py.startswith l "@@" = false.

(** Two file sections; the second has no hunk header. *)
Definition headerless_text : string :=
  unlines [ "diff --git a/x b/x"; "--- a/x"; "+++ b/x"; "@@ -7,2 +9,2 @@";
            " one"; "+two";
            "diff --git a/y b/y"; "--- a/y"; "+++ b/y"; " three" ].

(** Two [+++] lines with no separator between them. *)
Definition double_plus_lines : list string :=
  [ "+++ b/x"; "@@ -1 +1 @@"; "+lost"; "+++ b/y"; "@@ -1 +1 @@"; "+kept" ].

(** For each flattened line, the index of the file it belongs to. *)
Definition owners (files : list DiffFile.t) : list nat :=
  concat (imap (fun i f => replicate (length (DiffFile.lines f)) i) files).

(** The dictionary with keys [k, k+1, ...] in this order and values [vs]:
    the shape [line_to_file] has. *)
Definition dense (k : nat) (vs : list nat) : Py.dict nat nat :=
  zip (seq k (length vs)) vs.

(** The application as it stands when the reviewer has pressed [c] on the
    line at position [p] of file [fi]. *)
Definition commenting (d : Diff.t) (fi p : nat) : app.DiffReviewApp :=
  app.action_create_comment (app.init d) (Some (flat_index (Diff.files d) fi p)).

(** Position [p] holds the first record of [lines] equal to [line]. *)
Definition first_occurrence (lines : list DiffLine.t) (p : nat) (line : DiffLine.t) : Prop :=
  lines !! p = Some line /\ forall q, q < p -> lines !! q <> Some line.

(** What one item of a pattern can have consumed ([used]) and done to the
    captures. *)
Fixpoint item_ok (i : re.item) (used : string) (caps caps' : re.captures) : Prop :=
  match i with
  | re.Lit text => used = text /\ caps' = caps
  | re.Opt c => caps' = caps
  | re.Star cls => Py.all_chars cls used = true /\ caps' = caps
  | re.Plus cls => Py.all_chars cls used = true /\ used <> "" /\ caps' = caps
  | re.Cap i' => exists caps0, item_ok i' used caps caps0 /\ caps' = caps0 ++ [used]
  end.

(** The same for a sequence of items, from the captures [caps] to the
    result [r]. *)
Fixpoint seq_ok (p : re.pattern) (caps r : re.captures) : Prop :=
  match p with
  | [] => r = caps
  | i :: p' => exists used caps', item_ok i used caps caps' /\ seq_ok p' caps' r
  end.

(** No number of a hunk header on [line] is longer than [int()] takes. *)
Definition short_numbers (line : string) : Prop :=
  forall m g,
    re.match_ parser.hunk_pattern line = Some m -> g ∈ m ->
    (Z.of_nat (String.length g) <= Py.int_max_str_digits)%Z.

(** One file in which the same Added line comes twice, under two hunk
    headers with the same text. *)
Definition twin_text : string :=
  unlines [ "+++ b/x"; "@@ -1 +1 @@"; "+a"; "@@ -1 +1 @@"; "+a" ].

(** The shape of a record in a file of the given path: the file's path, and
    the line numbers its kind calls for; a hunk-header record holds the hunk
    line as content and as hunk header. *)
Definition record_ok (path : string) (r : DiffLine.t) : Prop :=
  DiffLine.file_path r = path /\
  ((DiffLine.line_type r = "@" /\
    DiffLine.old_line_no r = None /\ DiffLine.new_line_no r = None /\
    DiffLine.hunk_header r = DiffLine.content r /\
    Py.startswith (DiffLine.content r) "@@" = true) \/
   (DiffLine.line_type r = "+" /\
    DiffLine.old_line_no r = None /\ is_Some (DiffLine.new_line_no r)) \/
   (DiffLine.line_type r = "-" /\
    is_Some (DiffLine.old_line_no r) /\ DiffLine.new_line_no r = None) \/
   (DiffLine.line_type r = " " /\
    is_Some (DiffLine.old_line_no r) /\ is_Some (DiffLine.new_line_no r))).

(** A file as the parser builds it: records of the right shape, no comment. *)
Definition file_ok (f : DiffFile.t) : Prop :=
  Forall (record_ok (DiffFile.path f)) (DiffFile.lines f) /\
  DiffFile.comments f = Py.dict_empty.

Definition state_ok (st : parser.state) : Prop :=
  Forall file_ok (Diff.files (parser.diff st)) /\
  from_option file_ok True (parser.current_file st).

(** The number of file sections a parser state holds, finished or open. *)
Definition sections (st : parser.state) : nat :=
  length (Diff.files (parser.diff st))
  + match parser.current_file st with Some _ => 1 | None => 0 end.

(** The number of [+++] lines among [ls]. *)
Definition plus_lines (ls : list string) : nat :=
  length (filter (fun l => Py.startswith l "+++" = true) ls).

(** The text [s] does not go on with a character of the class [cls]. *)
Definition stops (cls : ascii -> bool) (s : string) : Prop :=
  match s with
  | String c _ => cls c = false
  | EmptyString => True
  end.

(** A start number of a hunk header: a non-empty run of digits that
    [int()] converts. *)
Definition number (d : string) : Prop :=
  Py.all_digits d = true /\ d <> "" /\
  (Z.of_nat (String.length d) <= Py.int_max_str_digits)%Z.

(** The optional count of a hunk header: nothing, or a comma and digits. *)
Definition count_part (c : string) : Prop :=
  c = "" \/ exists k, c = "," +:+ k /\ Py.all_digits k = true.

(** The range text of a hunk header, [-old[,count] +new[,count]]. *)
Definition hunk_range_text (d1 c1 d2 c2 : string) : string :=
  "-" +:+ d1 +:+ c1 +:+ " +" +:+ d2 +:+ c2.

(** A hunk line in the usual form, with anything after the closing [@@]. *)
Definition hunk_line (d1 c1 d2 c2 tail : string) : string :=
  "@@ " +:+ hunk_range_text d1 c1 d2 c2 +:+ " @@" +:+ tail.

Definition not_at (c : ascii) : bool := negb (bool_decide (c = "@"%char)).
Definition not_space (c : ascii) : bool := negb (Py.isspace c).

(** The line widget mounted for position [p] of file [fi]. *)
Definition widget_at (d : Diff.t) (fi p : nat) (line : DiffLine.t) : app.DiffLineWidget :=
  app.Widget line (flat_index (Diff.files d) fi p).

(** The path and the lines of each file: what the handlers never change. *)
Definition skeleton (d : Diff.t) : list (string * list DiffLine.t) :=
  (fun f => (DiffFile.path f, DiffFile.lines f)) <$> Diff.files d.

(** The positions that carry a comment, in the order of the dictionary. *)
Definition commented (f : DiffFile.t) : list nat := (DiffFile.comments f).*1.

(** A comment as the handler builds it for [line]: trimmed, non-empty text. *)
Definition made_for (f : DiffFile.t) (line : DiffLine.t) (c : Comment.t) : Prop :=
  exists text,
    c = app.make_comment f line text /\ Py.strip text = text /\ text <> "".

(** A file whose comment mapping is in order: each position at most once,
    and each comment at the first position of the line it was made for. *)
Definition tidy_file (f : DiffFile.t) : Prop :=
  NoDup (commented f) /\
  forall k c, (k, c) ∈ DiffFile.comments f ->
    exists line, first_occurrence (DiffFile.lines f) k line /\ made_for f line c.

Definition tidy (d : Diff.t) : Prop := Forall tidy_file (Diff.files d).

(** The documents a review session can reach from [d0]: by submitting text
    for a line, or by deleting on a line. *)
Inductive session (d0 : Diff.t) : Diff.t -> Prop :=
| session_start : session d0 d0
| session_submit (d : Diff.t) (fi p : nat) (f : DiffFile.t) (line : DiffLine.t)
    (value : string) (self' : app.DiffReviewApp) :
    session d0 d ->
    Diff.files d !! fi = Some f -> DiffFile.lines f !! p = Some line ->
    app.on_input_submitted (commenting d fi p) value = Py.Ok self' ->
    session d0 (app.diff self')
| session_delete (d : Diff.t) (fi p : nat) (f : DiffFile.t) (line : DiffLine.t)
    (self' : app.DiffReviewApp) :
    session d0 d ->
    Diff.files d !! fi = Some f -> DiffFile.lines f !! p = Some line ->
    app.action_delete_comment (app.init d) (Some (widget_at d fi p line))
    = Py.Ok self' ->
    session d0 (app.diff self').

(** The line widget, or the comment, a mounted widget is, if it is one. *)
Definition line_of (m : app.mounted) : option app.DiffLineWidget :=
  match m with
  | app.LineWidget w => Some w
  | _ => None
  end.

Definition comment_of (m : app.mounted) : option Comment.t :=
  match m with
  | app.CommentWidget c => Some c
  | _ => None
  end.

(** The widgets of the lines [ls], which start at position [pos] of their
    file and at index [k] of the view; [cs] is the file's comment mapping. *)
Fixpoint file_view (cs : Py.dict nat Comment.t) (ls : list DiffLine.t) (pos k : nat)
  : list app.mounted :=
  match ls with
  | [] => []
  | l :: ls' =>
      app.LineWidget (app.Widget l k)
      :: match Py.dict_get cs pos with
         | Some c => [app.CommentWidget c]
         | None => []
         end
      ++ file_view cs ls' (S pos) (S k)
  end.

(** The widgets of the files [fs], whose first line has index [k]. *)
Fixpoint view_from (fs : list DiffFile.t) (k : nat) : list app.mounted :=
  match fs with
  | [] => []
  | f :: fs' =>
      app.FileHeader (DiffFile.path f)
      :: file_view (DiffFile.comments f) (DiffFile.lines f) 0 k
      ++ view_from fs' (k + length (DiffFile.lines f))
  end.

(** The scenario document with a comment on its context line. *)
Definition annotated_diff : Diff.t :=
  Diff.Build
    [ DiffFile.Build "x" scenario_lines
        [ (1, Comment.Build "x" (Some 1%Z) "-1,2 +1,3" "b" "line1") ] ].

(** What a reviewer does on the line at position [p] of file [fi]: press
    [c], type [value] and submit it, or press [d]. *)
Inductive event : Type :=
| Submit (fi p : nat) (value : string)
| Delete (fi p : nat).

Definition event_file (e : event) : nat :=
  match e with
  | Submit fi _ _ => fi
  | Delete fi _ => fi
  end.

Definition event_position (e : event) : nat :=
  match e with
  | Submit _ p _ => p
  | Delete _ p => p
  end.

(** The document after one event, through the handlers. *)
Definition run_event (d : Diff.t) (e : event) : Py.result Diff.t :=
  match e with
  | Submit fi p value =>
      self' <- app.on_input_submitted (commenting d fi p) value ;;
      Py.Ok (app.diff self')
  | Delete fi p =>
      f <- Py.getitem (Diff.files d) fi ;;
      line <- Py.getitem (DiffFile.lines f) p ;;
      self' <- app.action_delete_comment (app.init d)
                 (Some (widget_at d fi p line)) ;;
      Py.Ok (app.diff self')
  end.

(** The document after a review session, event by event. *)
Definition run_events (es : list event) (d : Diff.t) : Py.result Diff.t :=
  Py.for_each run_event es d.

(** The event is on a line of the document. *)
Definition on_a_line (d : Diff.t) (e : event) : Prop :=
  exists f line,
    Diff.files d !! event_file e = Some f /\
    DiffFile.lines f !! event_position e = Some line.

(** The position the handlers use for the line at position [p] of file
    [fi]: the first position of the file whose record equals that line. *)
Definition stored_at (d : Diff.t) (fi p : nat) : nat :=
  match Diff.files d !! fi with
  | Some f =>
      match DiffFile.lines f !! p with
      | Some line => app.find_file_line_idx (DiffFile.lines f) line
      | None => p
      end
  | None => p
  end.

(** The order of creation of the commented positions of file [fi], kept
    through one event: a submission with text whose position is not in the
    list puts it last, one whose position is in the list leaves the list as
    it is, a deletion takes the position out. The position of an event is
    the one the handlers use for its line. *)
Definition log_event (d : Diff.t) (fi : nat) (keys : list nat) (e : event) : list nat :=
  match e with
  | Submit fi' p value =>
      if bool_decide (fi' = fi) && negb (bool_decide (Py.strip value = ""))
      then (if bool_decide (stored_at d fi' p ∈ keys) then keys
            else keys ++ [stored_at d fi' p])
      else keys
  | Delete fi' p =>
      if bool_decide (fi' = fi)
      then filter (fun k => k <> stored_at d fi' p) keys
      else keys
  end.

(** The positions of file [fi] that carry a comment after the events [es]
    on the document [d], in the order in which they were last created. *)
Definition creation_order (d : Diff.t) (es : list event) (fi : nat) : list nat :=
  fold_left (log_event d fi) es [].

(** A session on the scenario document: a comment on position 3 and then
    one on position 1. *)
Definition late_first_events : list event :=
  [ Submit 0 3 "second"; Submit 0 1 "first" ].

(** The document parsed from [twin_text]: positions 1 and 3 of its file
    hold equal records. *)
Definition twin_hunk : DiffLine.t :=
  DiffLine.Build "@" "@@ -1 +1 @@" None None "x" "@@ -1 +1 @@".

Definition twin_line : DiffLine.t :=
  DiffLine.Build "+" "a" None (Some 1%Z) "x" "-1 +1".

Definition twin_file : DiffFile.t :=
  DiffFile.Build "x" [ twin_hunk; twin_line; twin_hunk; twin_line ] Py.dict_empty.

Definition twin_diff : Diff.t := Diff.Build [ twin_file ].

(** The twin document with a comment under position 1. *)
Definition twin_annotated_file : DiffFile.t :=
  DiffFile.Build "x" [ twin_hunk; twin_line; twin_hunk; twin_line ]
    [ (1, Comment.Build "x" (Some 1%Z) "-1 +1" "note" "a") ].

Definition twin_annotated : Diff.t := Diff.Build [ twin_annotated_file ].

(** * Theorems *)

(** C6: the scenario text parses to one file [x] whose lines are the hunk
    header, Context line1 (1,1), Removed line2 (old 2), Added line2b (new 2)
    and Added line3 (new 3), in that order. *)
Theorem parse_scenario : parser.parse_diff scenario_text = Py.Ok scenario_diff.
Proof. vm_compute. reflexivity. Qed.

(** ** Leading characters *)

Lemma startswith_head (c : ascii) (s : string) (p : ascii) (q : string) :
  Py.startswith (String c s) (String p q) = true -> c = p.
Proof. simpl. case_decide; [done | discriminate]. Qed.

(** Two prefixes that differ in their first character exclude each other. *)
Lemma startswith_exclusive (line : string) (p1 p2 : ascii) (q1 q2 : string) :
  p1 <> p2 ->
  Py.startswith line (String p1 q1) = true ->
  Py.startswith line (String p2 q2) = false.
Proof.
  intros Hne H. destruct line as [|c body]; [done |].
  apply startswith_head in H as ->. simpl. by case_decide.
Qed.

Lemma contains_startswith (s sub : string) :
  Py.startswith s sub = true -> Py.contains s sub = true.
Proof. intros H. destruct s; simpl in *; by rewrite H. Qed.

(** ** The comment handler *)

(** C7: a submission whose trimmed text is empty creates and replaces
    nothing: the handler ends normally, the document (hence every comment
    mapping) is the one before, and an edit in progress is cancelled. *)
Theorem empty_submission_is_cancel (self : app.DiffReviewApp) (value : string) :
  Py.strip value = "" ->
  exists self',
    app.on_input_submitted self value = Py.Ok self' /\
    app.diff self' = app.diff self /\
    (app.editing self = true -> is_Some (app.edit_line_idx self) ->
     self' = app.action_cancel_edit self /\
     app.editing self' = false /\ app.edit_line_idx self' = None).
Proof.
  intros Hempty. unfold app.on_input_submitted.
  destruct (app.editing self) eqn:Hediting.
  - destruct (app.edit_line_idx self) as [idx|] eqn:Hidx.
    + rewrite Hempty. simpl. eexists. split; [reflexivity |].
      unfold app.action_cancel_edit. rewrite Hediting. simpl. auto.
    + eexists. split; [reflexivity |]. split; [done |].
      intros _ [? ?]. discriminate.
  - eexists. split; [reflexivity |]. split; [done |]. discriminate.
Qed.

Lemma empty_submission_is_cancel_witness :
  exists self',
    app.on_input_submitted
      (app.action_create_comment (app.init scenario_diff) (Some 1)) "   "
    = Py.Ok self' /\
    app.diff self' = scenario_diff.
Proof.
  destruct (empty_submission_is_cancel
              (app.action_create_comment (app.init scenario_diff) (Some 1)) "   ")
    as (self' & Hrun & Hdiff & _); [reflexivity |].
  exists self'. split; [exact Hrun | exact Hdiff].
Defined.

(** C4, evaluated where the new-line number is present and 0: the target is
    Context "ctx" with old 5 and new 0, and the comment made for it gets
    line number 5, not 0. *)
Theorem comment_on_new_line_zero :
  exists d self' line c,
    parser.parse_diff zero_text = Py.Ok d /\
    app.all_lines (app.init d) !! 1 = Some line /\
    DiffLine.new_line_no line = Some 0%Z /\
    DiffLine.old_line_no line = Some 5%Z /\
    app.on_input_submitted (app.action_create_comment (app.init d) (Some 1)) "note"
    = Py.Ok self' /\
    get_comment (app.diff self') 0 1 = Some c /\
    Comment.line_no c = Some 5%Z.
Proof. do 4 eexists. repeat split; vm_compute; reflexivity. Qed.

(** ** The parser *)

(** C8, evaluated on a hunk header with a 4301-digit start number: the
    pattern matches, [int()] refuses the conversion and [parse_diff] raises
    [ValueError] instead of returning a document. *)
Theorem parse_overlong_hunk_raises :
  parser.parse_diff overlong_hunk = Py.Raise Py.ValueError.
Proof. vm_compute. reflexivity. Qed.

(** *** The loop, round by round *)

Lemma for_each_app {A S : Type} (body : S -> A -> Py.result S) (xs ys : list A) (s : S) :
  Py.for_each body (xs ++ ys) s = (s' <- Py.for_each body xs s ;; Py.for_each body ys s').
Proof.
  revert s. induction xs as [|x xs IH]; intros s; simpl; [done |].
  destruct (body s x); simpl; [apply IH | done].
Qed.

Lemma parse_line_separator (st : parser.state) (line : string) :
  Py.startswith line "diff --git" = true ->
  parser.parse_line st line
  = Py.Ok (parser.State (parser.append_current (parser.diff st) (parser.current_file st))
             None (parser.current_hunk st) (parser.old_line_no st) (parser.new_line_no st)).
Proof. intros H. unfold parser.parse_line. by rewrite H. Qed.

Lemma parse_line_new_file (st : parser.state) (line : string) :
  Py.startswith line "+++" = true ->
  exists path,
    parser.parse_line st line
    = Py.Ok (parser.State (parser.diff st) (Some (DiffFile.new path))
               (parser.current_hunk st) (parser.old_line_no st) (parser.new_line_no st)).
Proof.
  intros H. unfold parser.parse_line.
  rewrite (startswith_exclusive line "+" "d" "++" "iff --git") by done.
  rewrite H. eauto.
Qed.

Lemma parse_line_hunk (st : parser.state) (line : string) :
  Py.startswith line "@@" = true ->
  parser.parse_line st line
  = (st1 <- parser.read_hunk st line ;;
     match parser.current_file st1 with
     | Some f =>
         Py.Ok (parser.State (parser.diff st1)
                  (Some (parser.append_line f
                           (DiffLine.Build "@" line None None (DiffFile.path f) line)))
                  (parser.current_hunk st1) (parser.old_line_no st1)
                  (parser.new_line_no st1))
     | None => Py.Ok st1
     end).
Proof.
  intros H. unfold parser.parse_line.
  rewrite (startswith_exclusive line "@" "d" "@" "iff --git") by done.
  rewrite (startswith_exclusive line "@" "+" "@" "++") by done.
  by rewrite H.
Qed.

(** The state after a content line that begins with [c], in a file [f]. *)
Lemma parse_line_content (st : parser.state) (f : DiffFile.t) (c : ascii) (body : string) :
  parser.current_file st = Some f ->
  Py.startswith (String c body) "diff --git" = false ->
  Py.startswith (String c body) "+++" = false ->
  Py.startswith (String c body) "@@" = false ->
  parser.parse_line st (String c body)
  = Py.Ok
      (if decide (c = "+"%char) then
         parser.State (parser.diff st)
           (Some (parser.append_line f
                    (DiffLine.Build "+" body None (Some (parser.new_line_no st))
                       (DiffFile.path f) (parser.current_hunk st))))
           (parser.current_hunk st) (parser.old_line_no st) (parser.new_line_no st + 1)
       else if decide (c = "-"%char) then
         parser.State (parser.diff st)
           (Some (parser.append_line f
                    (DiffLine.Build "-" body (Some (parser.old_line_no st)) None
                       (DiffFile.path f) (parser.current_hunk st))))
           (parser.current_hunk st) (parser.old_line_no st + 1) (parser.new_line_no st)
       else if decide (c = " "%char) then
         parser.State (parser.diff st)
           (Some (parser.append_line f
                    (DiffLine.Build " " body
                       (Some (parser.old_line_no st)) (Some (parser.new_line_no st))
                       (DiffFile.path f) (parser.current_hunk st))))
           (parser.current_hunk st) (parser.old_line_no st + 1) (parser.new_line_no st + 1)
       else st).
Proof.
  intros Hcur Hsep Hnew Hhunk. unfold parser.parse_line.
  rewrite Hsep, Hnew, Hhunk, Hcur.
  rewrite bool_decide_eq_false_2 by discriminate.
  cbn [Py.startswith Py.slice_from].
  repeat case_decide; reflexivity.
Qed.

(** A line that opens no branch of the loop body leaves the state alone. *)
Lemma parse_line_skipped (st : parser.state) (line : string) :
  Py.startswith line "diff --git" = false ->
  Py.startswith line "+++" = false ->
  Py.startswith line "@@" = false ->
  parser.current_file st = None \/ line = "" ->
  parser.parse_line st line = Py.Ok st.
Proof.
  intros Hsep Hnew Hhunk Hskip. unfold parser.parse_line.
  rewrite Hsep, Hnew, Hhunk.
  destruct (parser.current_file st); [| done].
  destruct Hskip as [? | ->]; [done | reflexivity].
Qed.

(** C3, as the code has it: a non-empty line that is no [diff --git], [+++]
    or [@@] line, read while a file is open, gives an Added record when it
    begins with [+], a Removed record when it begins with [-], a Context
    record when it begins with a space (marker stripped, counters attached
    and advanced as the kind says), and is skipped, state untouched, when it
    begins with anything else. *)
Theorem content_line_by_marker
    (st : parser.state) (f : DiffFile.t) (c : ascii) (body : string) :
  parser.current_file st = Some f ->
  Py.startswith (String c body) "diff --git" = false ->
  Py.startswith (String c body) "+++" = false ->
  Py.startswith (String c body) "@@" = false ->
  exists st',
    parser.parse_line st (String c body) = Py.Ok st' /\
    (c = "+"%char -> st' = recorded st f (Added f st body) 0 1) /\
    (c = "-"%char -> st' = recorded st f (Removed f st body) 1 0) /\
    (c = " "%char -> st' = recorded st f (Context_ f st body) 1 1) /\
    (c <> "+"%char -> c <> "-"%char -> c <> " "%char -> st' = st).
Proof.
  intros Hcur Hsep Hnew Hhunk.
  eexists. split; [by apply parse_line_content |].
  unfold recorded, Added, Removed, Context_.
  repeat split; intros; subst; repeat case_decide;
    rewrite ?Z.add_0_r; congruence.
Qed.

Lemma content_line_by_marker_witness :
  parser.parse_line open_state " line1"
  = Py.Ok (recorded open_state (DiffFile.new "x")
             (Context_ (DiffFile.new "x") open_state "line1") 1 1).
Proof.
  destruct (content_line_by_marker open_state (DiffFile.new "x") " " "line1"
              eq_refl eq_refl eq_refl eq_refl)
    as (st' & Hrun & _ & _ & Hctx & _).
  rewrite Hrun, (Hctx eq_refl). reflexivity.
Defined.

(** C3 as stated fails on a line that begins with neither [+], [-] nor a
    space: the marker git prints for a missing final newline comes while a
    file is open, is no header line, and yields no record at all. *)
Lemma other_marker_counterexample :
  parser.current_file open_state = Some (DiffFile.new "x") /\
  no_newline_marker <> "" /\
  Py.startswith no_newline_marker "diff --git" = false /\
  Py.startswith no_newline_marker "+++" = false /\
  Py.startswith no_newline_marker "@@" = false /\
  Py.startswith no_newline_marker "+" = false /\
  Py.startswith no_newline_marker "-" = false /\
  parser.parse_line open_state no_newline_marker = Py.Ok open_state /\
  records open_state = [].
Proof. repeat split; done. Qed.

Lemma bind_Ok {A B : Type} (r : Py.result A) (k : A -> Py.result B) (b : B) :
  Py.bind r k = Py.Ok b -> exists a, r = Py.Ok a /\ k a = Py.Ok b.
Proof. destruct r as [a|e]; simpl; [eauto | discriminate]. Qed.

(** What a successful pass through the [if match:] block leaves behind. *)
Lemma read_hunk_Ok (st st1 : parser.state) (line : string) :
  parser.read_hunk st line = Py.Ok st1 ->
  match re.match_ parser.hunk_pattern line with
  | None => st1 = st
  | Some m =>
      exists g1 g2 old new hunk,
        re.group m 1 = Py.Ok g1 /\ Py.int g1 = Py.Ok old /\
        re.group m 2 = Py.Ok g2 /\ Py.int g2 = Py.Ok new /\
        parser.hunk_range line = Py.Ok hunk /\
        st1 = parser.State (parser.diff st) (parser.current_file st) hunk old new
  end.
Proof.
  unfold parser.read_hunk. destruct (re.match_ parser.hunk_pattern line) as [m|].
  - intros H.
    apply bind_Ok in H as (g1 & Hg1 & H). apply bind_Ok in H as (old & Hold & H).
    apply bind_Ok in H as (g2 & Hg2 & H). apply bind_Ok in H as (new & Hnew & H).
    apply bind_Ok in H as (hunk & Hhunk & H).
    exists g1, g2, old, new, hunk. repeat split; congruence.
  - congruence.
Qed.

Lemma read_hunk_keeps_files (st st1 : parser.state) (line : string) :
  parser.read_hunk st line = Py.Ok st1 ->
  parser.diff st1 = parser.diff st /\ parser.current_file st1 = parser.current_file st.
Proof.
  intros H. apply read_hunk_Ok in H.
  destruct (re.match_ parser.hunk_pattern line).
  - destruct H as (? & ? & ? & ? & ? & _ & _ & _ & _ & _ & ->). done.
  - by subst.
Qed.

(** The document under construction grows at separators only. *)
Lemma parse_line_files (st st' : parser.state) (line : string) :
  parser.parse_line st line = Py.Ok st' ->
  parser.diff st' =
    if Py.startswith line "diff --git"
    then parser.append_current (parser.diff st) (parser.current_file st)
    else parser.diff st.
Proof.
  intros H. destruct (Py.startswith line "diff --git") eqn:Hsep.
  { rewrite parse_line_separator in H by done. by inversion H. }
  destruct (Py.startswith line "+++") eqn:Hnew.
  { destruct (parse_line_new_file st line Hnew) as [path Hrun].
    rewrite Hrun in H. by inversion H. }
  destruct (Py.startswith line "@@") eqn:Hhunk.
  { rewrite parse_line_hunk in H by done.
    apply bind_Ok in H as (st1 & H1 & H).
    apply read_hunk_keeps_files in H1 as [Hd Hc].
    destruct (parser.current_file st1); inversion H; subst; simpl; congruence. }
  destruct (parser.current_file st) as [f|] eqn:Hcur.
  - destruct line as [|c body].
    + rewrite parse_line_skipped in H by auto. congruence.
    + rewrite (parse_line_content st f) in H by done.
      inversion H. by repeat case_decide.
  - rewrite parse_line_skipped in H by auto. congruence.
Qed.

(** A [+++] line is read the same way whether or not a file is open. *)
Lemma parse_line_new_file_forgets (st : parser.state) (line : string) :
  Py.startswith line "+++" = true ->
  parser.parse_line st line = parser.parse_line (without_current st) line.
Proof.
  intros Hplus. unfold parser.parse_line.
  rewrite (startswith_exclusive line "+" "d" "++" "iff --git") by done.
  by rewrite Hplus.
Qed.

(** C9: a [+++] line met while a file section is still open replaces that
    section: the returned document is the one the parser would return had no
    section been open, the list of finished files is untouched and the new
    section starts empty; and in any round the list of finished files grows
    only at a [diff --git] line (the remaining append is the one after the
    loop). *)
Theorem second_plus_line_discards_open_file
    (pre post : list string) (line : string) (st : parser.state) :
  Py.startswith line "+++" = true ->
  parser.parse_lines pre parser.initial = Py.Ok st ->
  (st' <- parser.parse_lines (pre ++ line :: post) parser.initial ;;
   Py.Ok (parser.finish st'))
  = (st' <- parser.parse_lines (line :: post) (without_current st) ;;
     Py.Ok (parser.finish st')) /\
  (exists path,
     parser.parse_line st line
     = Py.Ok (parser.State (parser.diff st) (Some (DiffFile.new path))
                (parser.current_hunk st) (parser.old_line_no st)
                (parser.new_line_no st))) /\
  (forall (s s' : parser.state) (l : string),
     parser.parse_line s l = Py.Ok s' ->
     Py.startswith l "diff --git" = false ->
     parser.diff s' = parser.diff s).
Proof.
  intros Hplus Hpre. split; [| split].
  - unfold parser.parse_lines. rewrite for_each_app.
    fold (parser.parse_lines pre parser.initial). rewrite Hpre. simpl.
    by rewrite (parse_line_new_file_forgets st line Hplus).
  - by apply parse_line_new_file.
  - intros s s' l Hrun Hsep. apply parse_line_files in Hrun. by rewrite Hsep in Hrun.
Qed.

Lemma second_plus_line_discards_open_file_witness :
  (st' <- parser.parse_lines double_plus_lines parser.initial ;;
   Py.Ok (parser.finish st'))
  = Py.Ok (Diff.Build
             [ DiffFile.Build "y"
                 [ DiffLine.Build "@" "@@ -1 +1 @@" None None "y" "@@ -1 +1 @@";
                   DiffLine.Build "+" "kept" None (Some 1%Z) "y" "-1 +1" ]
                 Py.dict_empty ]).
Proof.
  change double_plus_lines
    with (["+++ b/x"; "@@ -1 +1 @@"; "+lost"] ++ "+++ b/y" :: ["@@ -1 +1 @@"; "+kept"]).
  edestruct (second_plus_line_discards_open_file
               ["+++ b/x"; "@@ -1 +1 @@"; "+lost"] ["@@ -1 +1 @@"; "+kept"] "+++ b/y")
    as (Hsame & _); [reflexivity | vm_compute; reflexivity |].
  rewrite Hsame. vm_compute. reflexivity.
Defined.

(** C10: in one round of the loop the two counters are left alone by a
    [diff --git] or [+++] line and by a hunk line the pattern does not
    match, are set to the two parsed numbers by a hunk line it matches, and
    otherwise move only as the record of an Added, Removed or Context line is
    appended; so through a section header ([diff --git], any lines that are
    passed over, [+++]) the counters of the section before come out
    unchanged, with the new file open and empty. *)
Theorem counters_move_only_at_hunks_and_content :
  (forall (st st' : parser.state) (line : string),
     parser.parse_line st line = Py.Ok st' ->
     (Py.startswith line "diff --git" = true \/ Py.startswith line "+++" = true ->
      parser.old_line_no st' = parser.old_line_no st /\
      parser.new_line_no st' = parser.new_line_no st) /\
     (Py.startswith line "@@" = true ->
      match re.match_ parser.hunk_pattern line with
      | Some m =>
          exists g1 g2,
            re.group m 1 = Py.Ok g1 /\ Py.int g1 = Py.Ok (parser.old_line_no st') /\
            re.group m 2 = Py.Ok g2 /\ Py.int g2 = Py.Ok (parser.new_line_no st')
      | None =>
          parser.old_line_no st' = parser.old_line_no st /\
          parser.new_line_no st' = parser.new_line_no st
      end) /\
     (plain_line line ->
      st' = st \/
      exists f body,
        parser.current_file st = Some f /\
        (st' = recorded st f (Added f st body) 0 1 \/
         st' = recorded st f (Removed f st body) 1 0 \/
         st' = recorded st f (Context_ f st body) 1 1))) /\
  (forall (st : parser.state) (sep plus : string) (passed : list string),
     Py.startswith sep "diff --git" = true ->
     Forall plain_line passed ->
     Py.startswith plus "+++" = true ->
     exists path,
       parser.parse_lines (sep :: passed ++ [plus]) st
       = Py.Ok (parser.State
                  (parser.append_current (parser.diff st) (parser.current_file st))
                  (Some (DiffFile.new path))
                  (parser.current_hunk st) (parser.old_line_no st)
                  (parser.new_line_no st))).
Proof.
  split.
  - intros st st' line Hrun. split; [| split].
    + intros [Hsep | Hplus].
      * rewrite parse_line_separator in Hrun by done. by inversion Hrun.
      * destruct (parse_line_new_file st line Hplus) as [path Hnew].
        rewrite Hnew in Hrun. by inversion Hrun.
    + intros Hhunk. rewrite parse_line_hunk in Hrun by done.
      apply bind_Ok in Hrun as (st1 & H1 & Hrun).
      assert (parser.old_line_no st' = parser.old_line_no st1 /\
              parser.new_line_no st' = parser.new_line_no st1) as [-> ->].
      { destruct (parser.current_file st1); by inversion Hrun. }
      apply read_hunk_Ok in H1.
      destruct (re.match_ parser.hunk_pattern line) as [m|].
      * destruct H1 as (g1 & g2 & old & new & hunk & ? & ? & ? & ? & _ & ->).
        exists g1, g2. done.
      * by subst.
    + intros (Hsep & Hplus & Hhunk).
      destruct (parser.current_file st) as [f|] eqn:Hcur;
        [| left; rewrite parse_line_skipped in Hrun by auto; congruence].
      destruct line as [|c body];
        [left; rewrite parse_line_skipped in Hrun by auto; congruence |].
      rewrite (parse_line_content st f) in Hrun by done. inversion Hrun.
      unfold recorded, Added, Removed, Context_.
      repeat case_decide; rewrite ?Z.add_0_r; eauto 8.
  - intros st sep plus passed Hsep Hpassed Hplus.
    unfold parser.parse_lines. cbn [Py.for_each].
    rewrite parse_line_separator by done. cbn [Py.bind].
    rewrite for_each_app.
    set (st0 := parser.State _ None _ _ _).
    assert (Py.for_each parser.parse_line passed st0 = Py.Ok st0) as ->.
    { induction Hpassed as [|l ls (? & ? & ?) _ IH]; [done |].
      cbn [Py.for_each]. rewrite parse_line_skipped by auto. exact IH. }
    cbn [Py.bind Py.for_each].
    destruct (parse_line_new_file st0 plus Hplus) as [path ->].
    by exists path.
Qed.

Lemma counters_move_only_at_hunks_and_content_witness :
  (exists g1 g2,
     re.group ["7"; "9"] 1 = Py.Ok g1 /\ Py.int g1 = Py.Ok 7%Z /\
     re.group ["7"; "9"] 2 = Py.Ok g2 /\ Py.int g2 = Py.Ok 9%Z) /\
  (exists path,
     parser.parse_lines ["diff --git a/y b/y"; "--- a/y"; "+++ b/y"] open_state
     = Py.Ok (parser.State (Diff.Build [DiffFile.new "x"]) (Some (DiffFile.new path))
                "-1 +1" 1 1)).
Proof.
  destruct counters_move_only_at_hunks_and_content as [Hstep Hheader]. split.
  - destruct (Hstep open_state
                (parser.State (Diff.Build [])
                   (Some (parser.append_line (DiffFile.new "x")
                            (DiffLine.Build "@" "@@ -7,2 +9,2 @@" None None "x"
                               "@@ -7,2 +9,2 @@")))
                   "-7,2 +9,2" 7 9)
                "@@ -7,2 +9,2 @@" eq_refl) as (_ & Hhunk & _).
    exact (Hhunk eq_refl).
  - apply (Hheader open_state "diff --git a/y b/y" "+++ b/y" ["--- a/y"]);
      [reflexivity | repeat constructor | reflexivity].
Defined.

(** The counters a section without hunk header starts from, on a text:
    the Context line of [y] is numbered 8 and 11, where [x] stopped. *)
Example headerless_section_inherits :
  parser.parse_diff headerless_text
  = Py.Ok (Diff.Build
             [ DiffFile.Build "x"
                 [ DiffLine.Build "@" "@@ -7,2 +9,2 @@" None None "x" "@@ -7,2 +9,2 @@";
                   DiffLine.Build " " "one" (Some 7%Z) (Some 9%Z) "x" "-7,2 +9,2";
                   DiffLine.Build "+" "two" None (Some 10%Z) "x" "-7,2 +9,2" ]
                 Py.dict_empty;
               DiffFile.Build "y"
                 [ DiffLine.Build " " "three" (Some 8%Z) (Some 11%Z) "y" "-7,2 +9,2" ]
                 Py.dict_empty ]).
Proof. vm_compute. reflexivity. Qed.

(** *** The hunk header carried by the records *)

Lemma records_unfold (st : parser.state) :
  records st
  = flat_lines (Diff.files (parser.diff st))
    ++ from_option DiffFile.lines [] (parser.current_file st).
Proof.
  unfold records, parser.finish, parser.append_current, flat_lines.
  destruct (parser.current_file st) as [f|]; simpl.
  - by rewrite fmap_app, concat_app; simpl; rewrite app_nil_r.
  - by rewrite app_nil_r.
Qed.

Lemma records_append_line
    (st : parser.state) (f : DiffFile.t) (r0 : DiffLine.t) (h : string) (o n : Z) :
  parser.current_file st = Some f ->
  records (parser.State (parser.diff st) (Some (parser.append_line f r0)) h o n)
  = records st ++ [r0].
Proof.
  intros Hcur. rewrite !records_unfold, Hcur. simpl. by rewrite app_assoc.
Qed.

(** A round on a line that is no hunk line keeps the current hunk header,
    and any record it adds is an Added, Removed or Context record carrying
    that header. *)
Lemma parse_line_carries_hunk (st : parser.state) (l : string) :
  Py.startswith l "@@" = false ->
  exists st',
    parser.parse_line st l = Py.Ok st' /\
    parser.current_hunk st' = parser.current_hunk st /\
    forall r, r ∈ records st' ->
      r ∈ records st \/
      (DiffLine.hunk_header r = parser.current_hunk st /\
       DiffLine.line_type r ∈ ["+"; "-"; " "]).
Proof.
  intros Hhunk.
  destruct (Py.startswith l "diff --git") eqn:Hsep.
  { eexists. split; [by apply parse_line_separator |]. split; [done |].
    intros r Hr. left. exact Hr. }
  destruct (Py.startswith l "+++") eqn:Hplus.
  { destruct (parse_line_new_file st l Hplus) as [path ->].
    eexists. split; [done |]. split; [done |].
    intros r. rewrite !records_unfold. simpl. rewrite app_nil_r.
    intros Hr. left. apply elem_of_app. by left. }
  destruct (parser.current_file st) as [f|] eqn:Hcur;
    [| exists st; rewrite parse_line_skipped by auto; auto].
  destruct l as [|c body];
    [exists st; rewrite parse_line_skipped by auto; auto |].
  rewrite (parse_line_content st f) by done.
  eexists. split; [done |].
  repeat case_decide; (split; [done |]); intros r;
    rewrite ?(records_append_line st f) by done; auto;
    rewrite elem_of_app, list_elem_of_singleton;
    (intros [Hr | ->]; [by left | right; simpl; split; [done |]]);
    rewrite !elem_of_cons; auto.
Qed.

Lemma parse_lines_carry_hunk (rest : list string) (st : parser.state) :
  Forall (fun l => Py.startswith l "@@" = false) rest ->
  exists st',
    parser.parse_lines rest st = Py.Ok st' /\
    parser.current_hunk st' = parser.current_hunk st /\
    forall r, r ∈ records st' ->
      r ∈ records st \/
      (DiffLine.hunk_header r = parser.current_hunk st /\
       DiffLine.line_type r ∈ ["+"; "-"; " "]).
Proof.
  intros Hrest. revert st.
  induction Hrest as [|l rest Hl _ IH]; intros st.
  - exists st. auto.
  - destruct (parse_line_carries_hunk st l Hl) as (st1 & Hrun1 & Hh1 & Hrec1).
    destruct (IH st1) as (st2 & Hrun2 & Hh2 & Hrec2).
    exists st2. unfold parser.parse_lines in *. cbn [Py.for_each].
    rewrite Hrun1. cbn [Py.bind]. split; [done |]. split; [congruence |].
    intros r Hr. destruct (Hrec2 r Hr) as [Hin | Hnew].
    + apply Hrec1, Hin.
    + right. by rewrite <- Hh1.
Qed.

(** C2, as the code has it: on a hunk line that the pattern matches, the
    current hunk header becomes the text between the leading [@@] and the
    next [@@], trimmed (the second piece of the line split at [@@]); the
    HunkHeader record alone carries the full line; and every record added by
    the following lines up to the next hunk line is an Added, Removed or
    Context record carrying that trimmed text. *)
Theorem hunk_range_carried_until_next_hunk
    (st st1 : parser.state) (line : string) (rest : list string) :
  Py.startswith line "@@" = true ->
  is_Some (re.match_ parser.hunk_pattern line) ->
  parser.parse_line st line = Py.Ok st1 ->
  Forall (fun l => Py.startswith l "@@" = false) rest ->
  (exists piece,
     Py.getitem (Py.split line "@@") 1 = Py.Ok piece /\
     parser.current_hunk st1 = Py.strip piece) /\
  (forall f, parser.current_file st = Some f ->
     parser.current_file st1
     = Some (parser.append_line f
               (DiffLine.Build "@" line None None (DiffFile.path f) line))) /\
  (exists st2,
     parser.parse_lines rest st1 = Py.Ok st2 /\
     parser.current_hunk st2 = parser.current_hunk st1 /\
     forall r, r ∈ records st2 ->
       r ∈ records st1 \/
       (DiffLine.hunk_header r = parser.current_hunk st1 /\
        DiffLine.line_type r ∈ ["+"; "-"; " "])).
Proof.
  intros Hhunk [m Hm] Hrun Hrest.
  rewrite parse_line_hunk in Hrun by done.
  apply bind_Ok in Hrun as (st0 & Hread & Hrun).
  apply read_hunk_Ok in Hread. rewrite Hm in Hread.
  destruct Hread as (g1 & g2 & old & new & hunk & _ & _ & _ & _ & Hrange & ->).
  unfold parser.hunk_range in Hrange.
  rewrite (contains_startswith line "@@" Hhunk) in Hrange.
  apply bind_Ok in Hrange as (piece & Hpiece & Hstrip).
  inversion Hstrip; subst hunk. simpl in Hrun.
  split; [| split].
  - exists piece. split; [done |].
    destruct (parser.current_file st); by inversion Hrun.
  - intros f Hf. rewrite Hf in Hrun. by inversion Hrun.
  - by apply parse_lines_carry_hunk.
Qed.

Lemma hunk_range_carried_until_next_hunk_witness :
  exists st1 st2,
    parser.parse_line open_state "@@ -1,2 +1,3 @@" = Py.Ok st1 /\
    parser.current_hunk st1 = "-1,2 +1,3" /\
    parser.parse_lines [" line1"; "-line2"] st1 = Py.Ok st2 /\
    forall r, r ∈ records st2 ->
      r ∈ records st1 \/
      (DiffLine.hunk_header r = "-1,2 +1,3" /\ DiffLine.line_type r ∈ ["+"; "-"; " "]).
Proof.
  set (st1 := parser.State (Diff.Build [])
                (Some (parser.append_line (DiffFile.new "x")
                         (DiffLine.Build "@" "@@ -1,2 +1,3 @@" None None "x"
                            "@@ -1,2 +1,3 @@")))
                "-1,2 +1,3" 1 1).
  destruct (hunk_range_carried_until_next_hunk open_state st1 "@@ -1,2 +1,3 @@"
              [" line1"; "-line2"])
    as (_ & _ & st2 & Hrun & _ & Hrec);
    [reflexivity | by eexists | reflexivity | by repeat constructor |].
  exists st1, st2. split; [reflexivity |]. split; [reflexivity |].
  split; [exact Hrun | exact Hrec].
Defined.

(** C2 as stated fails on the scenario's hunk line: the Context record that
    follows it carries [-1,2 +1,3], not the full line [@@ -1,2 +1,3 @@]. *)
Lemma full_hunk_line_counterexample :
  exists st1 st2 r,
    Py.startswith "@@ -1,2 +1,3 @@" "@@" = true /\
    is_Some (re.match_ parser.hunk_pattern "@@ -1,2 +1,3 @@") /\
    parser.parse_line open_state "@@ -1,2 +1,3 @@" = Py.Ok st1 /\
    parser.parse_line st1 " line1" = Py.Ok st2 /\
    DiffFile.lines <$> parser.current_file st2
    = (fun f => DiffFile.lines f ++ [r]) <$> parser.current_file st1 /\
    DiffLine.line_type r = " " /\
    DiffLine.hunk_header r = "-1,2 +1,3" /\
    DiffLine.hunk_header r <> "@@ -1,2 +1,3 @@".
Proof.
  do 3 eexists. split; [reflexivity |]. split; [by eexists |].
  split; [reflexivity |]. split; [reflexivity |].
  split; [reflexivity |]. split; [reflexivity |]. split; [reflexivity | discriminate].
Qed.

(** ** Dictionaries *)

Section DictFacts.
Context {K V : Type} `{EqDecision K}.
Implicit Types (d : Py.dict K V) (k : K) (v : V).

Lemma dict_get_set_eq d k v : Py.dict_get (Py.dict_set d k v) k = Some v.
Proof.
  induction d as [|[k' v'] d IH]; simpl.
  - by case_decide.
  - destruct (decide (k' = k)) as [Heq | Hne]; simpl.
    + by rewrite decide_True.
    + by rewrite decide_False.
Qed.

(** A key that is not there yet goes to the end. *)
Lemma dict_set_fresh d k v :
  Py.dict_get d k = None -> Py.dict_set d k v = d ++ [(k, v)].
Proof.
  induction d as [|[k' v'] d IH]; simpl; [done |].
  case_decide; [discriminate |]. intros Hnone. by rewrite IH.
Qed.

End DictFacts.

Lemma dense_get (vs : list nat) (k i : nat) :
  Py.dict_get (dense k vs) (k + i) = vs !! i.
Proof.
  unfold dense. revert k i. induction vs as [|v vs IH]; intros k i; simpl; [done |].
  destruct i as [|i].
  - rewrite decide_True by lia. done.
  - rewrite decide_False by lia.
    replace (k + S i) with (S k + i) by lia. apply IH.
Qed.

Lemma dense_set (vs : list nat) (k v : nat) :
  Py.dict_set (dense k vs) (k + length vs) v = dense k (vs ++ [v]).
Proof.
  unfold dense. revert k. induction vs as [|v0 vs IH]; intros k; simpl.
  - by rewrite Nat.add_0_r.
  - rewrite decide_False by lia.
    replace (k + S (length vs)) with (S k + length vs) by lia.
    by rewrite IH.
Qed.

(** ** The flattened view built by [__init__] *)

Lemma flat_lines_snoc (files : list DiffFile.t) (f : DiffFile.t) :
  flat_lines (files ++ [f]) = flat_lines files ++ DiffFile.lines f.
Proof.
  unfold flat_lines. rewrite fmap_app, concat_app. simpl. by rewrite app_nil_r.
Qed.

Lemma owners_snoc (files : list DiffFile.t) (f : DiffFile.t) :
  owners (files ++ [f])
  = owners files ++ replicate (length (DiffFile.lines f)) (length files).
Proof.
  unfold owners. rewrite imap_app, concat_app. simpl.
  by rewrite Nat.add_0_r, app_nil_r.
Qed.

Lemma owners_length (files : list DiffFile.t) :
  length (owners files) = length (flat_lines files).
Proof.
  induction files as [|f files IH] using rev_ind; [done |].
  rewrite owners_snoc, flat_lines_snoc, !length_app, length_replicate. lia.
Qed.

(** The inner loop, over the lines of file number [i]. *)
Lemma flatten_file (i : nat) (ls all : list DiffLine.t) (vs : list nat) :
  length vs = length all ->
  fold_left
    (fun (acc : list DiffLine.t * Py.dict nat nat) line =>
       (acc.1 ++ [line], Py.dict_set acc.2 (length acc.1) i))
    ls (all, dense 0 vs)
  = (all ++ ls, dense 0 (vs ++ replicate (length ls) i)).
Proof.
  revert all vs. induction ls as [|l ls IH]; intros all vs Hlen;
    cbn [fold_left fst snd length replicate].
  - by rewrite !app_nil_r.
  - pose proof (dense_set vs 0 i) as Hset. rewrite Nat.add_0_l in Hset.
    rewrite <- Hlen, Hset, IH.
    + by rewrite <- !app_assoc.
    + rewrite !length_app. simpl. lia.
Qed.

Lemma flatten_snoc (files : list DiffFile.t) (f : DiffFile.t) :
  app.flatten (files ++ [f])
  = fold_left
      (fun (acc : list DiffLine.t * Py.dict nat nat) line =>
         (acc.1 ++ [line], Py.dict_set acc.2 (length acc.1) (length files)))
      (DiffFile.lines f) (app.flatten files).
Proof.
  unfold app.flatten. rewrite imap_app, fold_left_app. simpl.
  by rewrite Nat.add_0_r.
Qed.

(** [all_lines] is the concatenation of the files' lines and
    [line_to_file] sends each index to the file of its line. *)
Lemma flatten_spec (files : list DiffFile.t) :
  app.flatten files = (flat_lines files, dense 0 (owners files)).
Proof.
  induction files as [|f files IH] using rev_ind; [done |].
  rewrite flatten_snoc, IH, flatten_file by apply owners_length.
  by rewrite flat_lines_snoc, owners_snoc.
Qed.

Section Target.
Context (files : list DiffFile.t) (fi p : nat) (f : DiffFile.t) (line : DiffLine.t).
Hypothesis Hfile : files !! fi = Some f.
Hypothesis Hline : DiffFile.lines f !! p = Some line.

Lemma flat_lines_middle :
  flat_lines files
  = flat_lines (take fi files) ++ DiffFile.lines f ++ flat_lines (drop (S fi) files).
Proof.
  transitivity (flat_lines (take fi files ++ f :: drop (S fi) files));
    [by rewrite take_drop_middle |].
  unfold flat_lines. by rewrite fmap_app, concat_app.
Qed.

Lemma owners_middle :
  exists rest,
    owners files
    = owners (take fi files) ++ replicate (length (DiffFile.lines f)) fi ++ rest.
Proof.
  replace (owners files) with (owners (take fi files ++ f :: drop (S fi) files))
    by (by rewrite take_drop_middle).
  unfold owners. rewrite imap_app, concat_app. simpl.
  rewrite length_take_le by (apply lookup_lt_Some in Hfile; lia).
  rewrite Nat.add_0_r. eauto.
Qed.

Lemma flat_lines_target : flat_lines files !! flat_index files fi p = Some line.
Proof.
  unfold flat_index. rewrite flat_lines_middle.
  rewrite lookup_app_r by lia.
  replace (_ + p - _) with p by lia.
  rewrite lookup_app_l by (by apply lookup_lt_Some in Hline). done.
Qed.

Lemma owners_target : owners files !! flat_index files fi p = Some fi.
Proof.
  unfold flat_index. destruct owners_middle as [rest ->].
  rewrite <- owners_length.
  rewrite lookup_app_r by lia.
  replace (_ + p - _) with p by lia.
  rewrite lookup_app_l
    by (rewrite length_replicate; by apply lookup_lt_Some in Hline).
  apply lookup_replicate_2. by apply lookup_lt_Some in Hline.
Qed.

End Target.

(** ** Submitting a comment *)

Lemma find_first_occurrence (lines : list DiffLine.t) (p : nat) (line : DiffLine.t) :
  first_occurrence lines p line -> app.find_file_line_idx lines line = p.
Proof.
  intros [Hp Hfirst]. unfold app.find_file_line_idx.
  assert (list_find (fun file_line => file_line = line) lines = Some (p, line)) as ->; [| done].
  apply list_find_Some. split; [done |]. split; [done |].
  intros j y Hj Hlt ->. by apply (Hfirst j).
Qed.

(** The handler on a valid target with text that survives trimming. *)
Lemma submit_on_target
    (d : Diff.t) (fi p : nat) (f : DiffFile.t) (line : DiffLine.t) (value : string) :
  Diff.files d !! fi = Some f ->
  DiffFile.lines f !! p = Some line ->
  Py.strip value <> "" ->
  app.on_input_submitted (commenting d fi p) value
  = Py.Ok (app.Build
             (Diff.Build
                (<[fi := app.set_comment f
                           (app.find_file_line_idx (DiffFile.lines f) line)
                           (app.make_comment f line (Py.strip value))]>
                   (Diff.files d)))
             0 false None (flat_lines (Diff.files d)) (dense 0 (owners (Diff.files d)))).
Proof.
  intros Hfile Hline Htext.
  unfold commenting, app.action_create_comment, app.init, app.on_input_submitted.
  rewrite flatten_spec. cbn [app.editing app.edit_line_idx app.line_to_file
    app.all_lines app.diff app.current_line_idx fst snd].
  rewrite bool_decide_eq_false_2 by done.
  unfold Py.dict_getitem.
  pose proof (dense_get (owners (Diff.files d)) 0
                (flat_index (Diff.files d) fi p)) as Hget.
  rewrite Nat.add_0_l in Hget.
  rewrite Hget, (owners_target _ _ _ _ _ Hfile Hline). cbn [Py.bind].
  unfold Py.getitem. rewrite Hfile. cbn [Py.bind].
  rewrite (flat_lines_target _ _ _ _ _ Hfile Hline). reflexivity.
Qed.

Lemma get_comment_after_set
    (files : list DiffFile.t) (fi p : nat) (f : DiffFile.t) (c : Comment.t) :
  files !! fi = Some f ->
  get_comment (Diff.Build (<[fi := app.set_comment f p c]> files)) fi p = Some c.
Proof.
  intros Hfile. unfold get_comment. cbn [Diff.files].
  rewrite list_lookup_insert_eq by (by apply lookup_lt_Some in Hfile).
  simpl. apply dict_get_set_eq.
Qed.

(** C5, as the code has it: after a submission whose trimmed text is not
    empty, on a target line that is the first of its file equal to it, the
    comment found at the target's position has the trimmed text as content
    and the target's content and hunk header as context and hunk. *)
Theorem upsert_then_get
    (d : Diff.t) (fi p : nat) (f : DiffFile.t) (line : DiffLine.t) (value : string) :
  Diff.files d !! fi = Some f ->
  first_occurrence (DiffFile.lines f) p line ->
  Py.strip value <> "" ->
  exists self' c,
    app.on_input_submitted (commenting d fi p) value = Py.Ok self' /\
    get_comment (app.diff self') fi p = Some c /\
    Comment.content c = Py.strip value /\
    Comment.context c = DiffLine.content line /\
    Comment.hunk c = DiffLine.hunk_header line.
Proof.
  intros Hfile Hfirst Htext.
  eexists. exists (app.make_comment f line (Py.strip value)).
  split; [apply (submit_on_target d fi p f line); [done | apply Hfirst | done] |].
  rewrite (find_first_occurrence _ p line Hfirst). cbn [app.diff].
  split; [by apply get_comment_after_set | done].
Qed.

Lemma upsert_then_get_witness :
  exists self' c,
    app.on_input_submitted (commenting scenario_diff 0 1) " hi " = Py.Ok self' /\
    get_comment (app.diff self') 0 1 = Some c /\
    Comment.content c = "hi" /\
    Comment.context c = "line1" /\
    Comment.hunk c = "-1,2 +1,3".
Proof.
  apply (upsert_then_get scenario_diff 0 1
           (DiffFile.Build "x" scenario_lines Py.dict_empty)
           (DiffLine.Build " " "line1" (Some 1%Z) (Some 1%Z) "x" "-1,2 +1,3") " hi ").
  - reflexivity.
  - split; [reflexivity |]. intros [|q] Hq; [discriminate | lia].
  - discriminate.
Defined.

(** C5 as stated fails when the submitted text has blanks around it: the
    stored content is the trimmed text, not the text submitted. *)
Lemma submitted_text_counterexample :
  exists self' c,
    Diff.files scenario_diff !! 0
    = Some (DiffFile.Build "x" scenario_lines Py.dict_empty) /\
    scenario_lines !! 1
    = Some (DiffLine.Build " " "line1" (Some 1%Z) (Some 1%Z) "x" "-1,2 +1,3") /\
    Py.strip " hi " <> "" /\
    app.on_input_submitted (commenting scenario_diff 0 1) " hi " = Py.Ok self' /\
    get_comment (app.diff self') 0 1 = Some c /\
    Comment.content c <> " hi ".
Proof.
  do 2 eexists. split; [reflexivity |]. split; [reflexivity |].
  split; [discriminate |]. split; [reflexivity |]. split; [reflexivity |].
  discriminate.
Qed.

(** ** The feedback record *)

Lemma collect_file (items : list (nat * Comment.t)) (acc : list Entry.t) :
  fold_left (fun comments item => comments ++ [output.entry_of item.2]) items acc
  = acc ++ ((fun item => output.entry_of item.2) <$> items).
Proof.
  revert acc. induction items as [|item items IH]; intros acc; simpl.
  - by rewrite app_nil_r.
  - by rewrite IH, <- app_assoc.
Qed.

(** The loops list the comments file by file, each file's in the order of
    its dictionary. *)
Lemma collect_entries (files : list DiffFile.t) : output.collect files = entries files.
Proof.
  unfold output.collect.
  enough (forall acc,
             fold_left
               (fun comments file =>
                  fold_left (fun comments item => comments ++ [output.entry_of item.2])
                    (Py.dict_items (DiffFile.comments file)) comments)
               files acc
             = acc ++ entries files) as H by apply H.
  induction files as [|f files IH]; intros acc; simpl.
  - by rewrite app_nil_r.
  - by rewrite IH, collect_file, <- app_assoc.
Qed.

(** C1 as stated fails when the later line is commented first: with a
    comment made on position 3 and then one on position 1 of the same file,
    the entry of position 3 is listed before the entry of position 1. *)
Lemma position_order_counterexample :
  exists self1 self2 c1 c3,
    app.on_input_submitted (commenting scenario_diff 0 3) "second" = Py.Ok self1 /\
    app.on_input_submitted (app.action_create_comment self1 (Some 1)) "first"
    = Py.Ok self2 /\
    get_comment (app.diff self2) 0 1 = Some c1 /\
    get_comment (app.diff self2) 0 3 = Some c3 /\
    Feedback.comments (output.generate_feedback "now" (app.diff self2))
    = [output.entry_of c3; output.entry_of c1] /\
    output.entry_of c3 <> output.entry_of c1.
Proof.
  do 4 eexists. split; [reflexivity |]. split; [reflexivity |].
  split; [reflexivity |]. split; [reflexivity |]. split; [reflexivity |].
  discriminate.
Qed.

(** ** What a match of the hunk pattern captures *)

Lemma match_star_ok (cls : ascii -> bool) (s : string) (caps : re.captures)
    (k : re.cont) (r : re.captures) :
  re.match_star cls s caps k = Some r ->
  exists used rest, Py.all_chars cls used = true /\ k used rest caps = Some r.
Proof.
  revert k. induction s as [|c s IH]; intros k; simpl.
  - intros H. by exists "", "".
  - destruct (cls c) eqn:Hc; [| intros H; by exists "", (String c s)].
    destruct (re.match_star cls s caps _) as [r'|] eqn:Hstar.
    + intros [= ->]. apply IH in Hstar as (used & rest & Hall & Hk).
      exists (String c used), rest. simpl. by rewrite Hc, Hall.
    + intros H. by exists "", (String c s).
Qed.

Lemma match_item_ok (i : re.item) (s : string) (caps : re.captures)
    (k : re.cont) (r : re.captures) :
  re.match_item i s caps k = Some r ->
  exists used rest caps', item_ok i used caps caps' /\ k used rest caps' = Some r.
Proof.
  revert caps k. induction i as [text | c | cls | cls | i IH]; intros caps k; simpl.
  - destruct (Py.startswith s text); [| discriminate]. intros H. eauto 6.
  - destruct s as [|c' s].
    + intros H. eauto 6.
    + destruct (decide (c' = c)) as [-> | Hne]; [| intros Hrun; eauto 6].
      destruct (k _ s caps) eqn:Hk; [intros [= ->] | intros Hrun]; eauto 6.
  - intros H. apply match_star_ok in H as (used & rest & Hall & Hk). eauto 7.
  - destruct s as [|c s]; [discriminate |].
    destruct (cls c) eqn:Hc; [| discriminate].
    intros H. apply match_star_ok in H as (used & rest & Hall & Hk).
    exists (String c used), rest, caps. split; [| done].
    simpl. by rewrite Hc, Hall.
  - intros H. apply IH in H as (used & rest & caps0 & Hok & Hk). eauto 8.
Qed.

Lemma match_seq_ok (p : re.pattern) (s : string) (caps r : re.captures) :
  re.match_seq p s caps = Some r -> seq_ok p caps r.
Proof.
  revert s caps. induction p as [|i p IH]; intros s caps; simpl.
  - by intros [= ->].
  - intros H. apply match_item_ok in H as (used & rest & caps' & Hok & Hk).
    apply IH in Hk. eauto.
Qed.

(** A match of the hunk pattern has exactly two groups, each a non-empty run
    of digits. *)
Lemma hunk_match_groups (line : string) (m : re.captures) :
  re.match_ parser.hunk_pattern line = Some m ->
  exists g1 g2,
    m = [g1; g2] /\
    Py.all_digits g1 = true /\ g1 <> "" /\
    Py.all_digits g2 = true /\ g2 <> "".
Proof.
  intros H. apply match_seq_ok in H. simpl in H.
  destruct H as (? & ? & [_ ->] & H).
  destruct H as (g1 & ? & (? & (Hd1 & Hn1 & ->) & ->) & H).
  destruct H as (? & ? & -> & H).
  destruct H as (? & ? & [_ ->] & H).
  destruct H as (? & ? & [_ ->] & H).
  destruct H as (g2 & ? & (? & (Hd2 & Hn2 & ->) & ->) & H).
  destruct H as (? & ? & -> & H).
  destruct H as (? & ? & [_ ->] & H).
  destruct H as (? & ? & [_ ->] & H).
  destruct H as (? & ? & [_ ->] & ->).
  exists g1, g2. done.
Qed.

(** ** Where [parse_diff] cannot raise *)

Lemma split_from_cons (sep : string) (skip : nat) (s : string) :
  exists piece pieces, Py.split_from sep skip s = piece :: pieces.
Proof.
  revert skip. induction s as [|c s IH]; intros skip; simpl; [eauto |].
  destruct skip as [|k]; [| apply IH].
  destruct (Py.startswith _ sep); [eauto |].
  destruct (IH 0) as (piece & pieces & ->). eauto.
Qed.

(** A line that begins with [@@] has a second piece when split at [@@]. *)
Lemma hunk_range_Ok (line : string) :
  Py.startswith line "@@" = true -> exists hunk, parser.hunk_range line = Py.Ok hunk.
Proof.
  intros Hhunk. unfold parser.hunk_range.
  rewrite (contains_startswith _ _ Hhunk).
  destruct line as [|c1 [|c2 tail]];
    [discriminate | simpl in Hhunk; by case_decide |].
  unfold Py.split. cbn [Py.split_from]. rewrite Hhunk.
  cbn [String.length Nat.sub Py.split_from].
  destruct (split_from_cons "@@" 0 tail) as (piece & pieces & ->).
  eexists. reflexivity.
Qed.

Lemma int_Ok (g : string) :
  Py.all_digits g = true -> g <> "" ->
  (Z.of_nat (String.length g) <= Py.int_max_str_digits)%Z ->
  exists n, Py.int g = Py.Ok n.
Proof.
  intros Hd Hn Hlen. unfold Py.int. rewrite Hd.
  rewrite bool_decide_eq_false_2 by done. simpl.
  destruct (Z.leb_spec (Z.of_nat (String.length g)) Py.int_max_str_digits);
    [eauto | lia].
Qed.

Lemma read_hunk_total (st : parser.state) (line : string) :
  Py.startswith line "@@" = true -> short_numbers line ->
  exists st1, parser.read_hunk st line = Py.Ok st1.
Proof.
  intros Hhunk Hshort. unfold parser.read_hunk.
  destruct (re.match_ parser.hunk_pattern line) as [m|] eqn:Hm; [| eauto].
  destruct (hunk_match_groups line m Hm) as (g1 & g2 & -> & Hd1 & Hn1 & Hd2 & Hn2).
  destruct (int_Ok g1 Hd1 Hn1) as [old Hold].
  { apply (Hshort _ _ Hm). rewrite !elem_of_cons. auto. }
  destruct (int_Ok g2 Hd2 Hn2) as [new Hnew].
  { apply (Hshort _ _ Hm). rewrite !elem_of_cons. auto. }
  destruct (hunk_range_Ok line Hhunk) as [hunk Hrange].
  cbn [re.group Py.getitem Nat.sub lookup list_lookup Py.bind].
  rewrite Hold. cbn [Py.bind]. rewrite Hnew. cbn [Py.bind].
  rewrite Hrange. cbn [Py.bind]. eauto.
Qed.

(** A round of the loop ends normally unless a number of a hunk header is
    too long for [int()]. *)
Lemma parse_line_total (st : parser.state) (line : string) :
  short_numbers line -> exists st', parser.parse_line st line = Py.Ok st'.
Proof.
  intros Hshort.
  destruct (Py.startswith line "diff --git") eqn:Hsep.
  { rewrite parse_line_separator by done. eauto. }
  destruct (Py.startswith line "+++") eqn:Hplus.
  { destruct (parse_line_new_file st line Hplus) as [path ->]. eauto. }
  destruct (Py.startswith line "@@") eqn:Hhunk.
  { rewrite parse_line_hunk by done.
    destruct (read_hunk_total st line Hhunk Hshort) as [st1 ->]. cbn [Py.bind].
    destruct (parser.current_file st1); eauto. }
  destruct (parser.current_file st) as [f|] eqn:Hcur;
    [| rewrite parse_line_skipped by auto; eauto].
  destruct line as [|c body]; [rewrite parse_line_skipped by auto; eauto |].
  rewrite (parse_line_content st f) by done. eauto.
Qed.

(** [parse_diff] returns a document for every text whose hunk headers keep
    their numbers within what [int()] converts. *)
Lemma parse_diff_total (diff_text : string) :
  Forall short_numbers (Py.split diff_text parser.LF) ->
  exists d, parser.parse_diff diff_text = Py.Ok d.
Proof.
  intros Hshort. unfold parser.parse_diff, parser.parse_lines.
  generalize parser.initial.
  induction Hshort as [|line lines Hline _ IH]; intros st; cbn [Py.for_each Py.bind].
  - eauto.
  - destruct (parse_line_total st line Hline) as [st' ->]. cbn [Py.bind]. apply IH.
Qed.

(** ** The states the handler moves between *)

Lemma owners_by_lines (files : list DiffFile.t) :
  owners files
  = concat (imap (fun i (ls : list DiffLine.t) => replicate (length ls) i)
              (DiffFile.lines <$> files)).
Proof. unfold owners. by rewrite imap_fmap. Qed.

Lemma lines_insert (files : list DiffFile.t) (fi : nat) (f f' : DiffFile.t) :
  files !! fi = Some f ->
  DiffFile.lines f' = DiffFile.lines f ->
  DiffFile.lines <$> <[fi := f']> files = DiffFile.lines <$> files.
Proof.
  intros Hfile Hlines. rewrite list_fmap_insert, Hlines.
  apply list_insert_id. by rewrite list_lookup_fmap, Hfile.
Qed.

(** Storing a comment leaves the flattened view as it was. *)
Lemma flatten_set_comment
    (files : list DiffFile.t) (fi p : nat) (f : DiffFile.t) (c : Comment.t) :
  files !! fi = Some f ->
  app.flatten (<[fi := app.set_comment f p c]> files) = app.flatten files.
Proof.
  intros Hfile. rewrite !flatten_spec, !owners_by_lines. unfold flat_lines.
  by rewrite (lines_insert files fi f) by done.
Qed.

(** After a stored comment the application is in the state [__init__] would
    build from the annotated document: the theorems about [commenting] reach
    every state the handler can be called in. *)
Lemma submit_returns_to_init
    (d : Diff.t) (fi p : nat) (f : DiffFile.t) (line : DiffLine.t) (value : string)
    (self' : app.DiffReviewApp) :
  Diff.files d !! fi = Some f ->
  DiffFile.lines f !! p = Some line ->
  Py.strip value <> "" ->
  app.on_input_submitted (commenting d fi p) value = Py.Ok self' ->
  self' = app.init (app.diff self').
Proof.
  intros Hfile Hline Htext Hrun.
  rewrite (submit_on_target d fi p f line) in Hrun by done.
  inversion Hrun. unfold app.init. cbn [app.diff Diff.files].
  rewrite flatten_set_comment by done. by rewrite flatten_spec.
Qed.

(** Why the target has to be the first record equal to it: a comment
    submitted on the second [+a] (position 3) is stored at position 1, the
    first [+a], and position 3 stays without comment. *)
Example twin_lines_collide :
  exists d self',
    parser.parse_diff twin_text = Py.Ok d /\
    app.on_input_submitted (commenting d 0 3) "on the second" = Py.Ok self' /\
    get_comment (app.diff self') 0 3 = None /\
    Comment.content <$> get_comment (app.diff self') 0 1 = Some "on the second".
Proof. do 2 eexists. repeat split; vm_compute; reflexivity. Qed.

(** * Further properties of the code *)

(** ** What every parsed document looks like *)

Lemma parse_line_state_ok (st st' : parser.state) (line : string) :
  parser.parse_line st line = Py.Ok st' -> state_ok st -> state_ok st'.
Proof.
  intros Hrun [Hfiles Hcur]. unfold state_ok.
  destruct (Py.startswith line "diff --git") eqn:Hsep.
  { rewrite parse_line_separator in Hrun by done. inversion Hrun; subst; simpl.
    split; [| done]. unfold parser.append_current.
    destruct (parser.current_file st); [| done].
    simpl. apply Forall_app. split; [done | by constructor]. }
  destruct (Py.startswith line "+++") eqn:Hplus.
  { destruct (parse_line_new_file st line Hplus) as [path Hnew].
    rewrite Hnew in Hrun. inversion Hrun; subst; simpl.
    split; [done |]. by split; [constructor |]. }
  destruct (Py.startswith line "@@") eqn:Hhunk.
  { rewrite parse_line_hunk in Hrun by done.
    apply bind_Ok in Hrun as (st1 & H1 & Hrun).
    apply read_hunk_keeps_files in H1 as [Hd Hc].
    rewrite <- Hd, <- Hc in *.
    destruct (parser.current_file st1) as [f|] eqn:Hf1; inversion Hrun; subst; simpl.
    - split; [done |]. destruct Hcur as [Hlines Hcomments]. split; [| done].
      simpl. apply Forall_app. split; [done |]. constructor; [| done].
      split; [done |]. left. simpl. auto.
    - by rewrite Hf1. }
  destruct (parser.current_file st) as [f|] eqn:Hf;
    [| rewrite parse_line_skipped in Hrun by auto; inversion Hrun; subst;
       by rewrite Hf].
  destruct line as [|c body];
    [rewrite parse_line_skipped in Hrun by auto; inversion Hrun; subst;
     by rewrite Hf |].
  rewrite (parse_line_content st f) in Hrun by done.
  destruct Hcur as [Hlines Hcomments].
  inversion Hrun; subst.
  repeat case_decide; simpl; rewrite ?Hf; (split; [done |]); try done;
    (split; [| done]); simpl;
    (apply Forall_app; split; [done |]); (constructor; [| done]);
    (split; [done |]); simpl; eauto 10.
Qed.

Lemma parse_lines_state_ok (ls : list string) (st st' : parser.state) :
  parser.parse_lines ls st = Py.Ok st' -> state_ok st -> state_ok st'.
Proof.
  unfold parser.parse_lines. revert st.
  induction ls as [|l ls IH]; intros st; cbn [Py.for_each].
  - by intros [= ->].
  - intros Hrun Hok. apply bind_Ok in Hrun as (st1 & H1 & Hrun).
    eapply IH; [done |]. by eapply parse_line_state_ok.
Qed.

Lemma parse_diff_files_ok (diff_text : string) (d : Diff.t) :
  parser.parse_diff diff_text = Py.Ok d -> Forall file_ok (Diff.files d).
Proof.
  unfold parser.parse_diff. intros Hrun.
  apply bind_Ok in Hrun as (st & Hst & Hrun). inversion Hrun; subst.
  apply parse_lines_state_ok in Hst as [Hfiles Hcur]; [| by split; constructor].
  unfold parser.finish, parser.append_current.
  destruct (parser.current_file st); [| done].
  simpl. apply Forall_app. split; [done | by constructor].
Qed.

(** X1: in every document [parse_diff] returns, each record carries the
    path of the file it stands in, and its line numbers follow its kind: none
    for a hunk-header record (whose content and hunk header are the hunk
    line), only the new one for [+], only the old one for [-], both for a
    context line. *)
Theorem parsed_records_have_their_shape
    (diff_text : string) (d : Diff.t) (f : DiffFile.t) (r : DiffLine.t) :
  parser.parse_diff diff_text = Py.Ok d ->
  f ∈ Diff.files d -> r ∈ DiffFile.lines f ->
  record_ok (DiffFile.path f) r.
Proof.
  intros Hrun Hf Hr. apply parse_diff_files_ok in Hrun.
  rewrite Forall_forall in Hrun. destruct (Hrun f Hf) as [Hlines _].
  rewrite Forall_forall in Hlines. by apply Hlines.
Qed.

Lemma parsed_records_have_their_shape_witness :
  record_ok "x" (DiffLine.Build "-" "line2" (Some 2%Z) None "x" "-1,2 +1,3").
Proof.
  apply (parsed_records_have_their_shape scenario_text scenario_diff
           (DiffFile.Build "x" scenario_lines Py.dict_empty)).
  - vm_compute. reflexivity.
  - apply list_elem_of_here.
  - unfold scenario_lines. simpl. rewrite !elem_of_cons. auto.
Defined.

(** X2: a document fresh from [parse_diff] has no comment anywhere, so
    the feedback record saved by quitting at once lists no comments. *)
Theorem fresh_document_has_no_feedback (now diff_text : string) (d : Diff.t) :
  parser.parse_diff diff_text = Py.Ok d ->
  (forall fi p, get_comment d fi p = None) /\
  Feedback.comments (app.action_quit_app now (app.init d)) = [].
Proof.
  intros Hrun. apply parse_diff_files_ok in Hrun. split.
  - intros fi p. unfold get_comment.
    destruct (Diff.files d !! fi) as [f|] eqn:Hf; [| done]. simpl.
    rewrite Forall_forall in Hrun.
    destruct (Hrun f) as [_ ->]; [by eapply list_elem_of_lookup_2 | done].
  - unfold app.action_quit_app, app.init, output.generate_feedback.
    cbn [app.diff Feedback.comments]. rewrite collect_entries.
    unfold entries. induction Hrun as [|f fs [_ Hc] _ IH]; [done |].
    rewrite bind_cons, IH, Hc. done.
Qed.

Lemma fresh_document_has_no_feedback_witness :
  Feedback.comments (app.action_quit_app "now" (app.init scenario_diff)) = [].
Proof.
  apply (fresh_document_has_no_feedback "now" scenario_text scenario_diff).
  vm_compute. reflexivity.
Defined.

(** ** File sections *)

(** X3: the file sections finished so far are final: whatever lines
    follow, the document returned at the end begins with them, unchanged and
    in the same order. *)
Theorem finished_files_are_final (ls : list string) (st st' : parser.state) :
  parser.parse_lines ls st = Py.Ok st' ->
  exists more,
    Diff.files (parser.finish st') = Diff.files (parser.diff st) ++ more.
Proof.
  unfold parser.parse_lines. revert st.
  induction ls as [|l ls IH]; intros st; cbn [Py.for_each].
  - intros [= ->]. unfold parser.finish, parser.append_current.
    destruct (parser.current_file st'); simpl; [eauto |].
    exists []. by rewrite app_nil_r.
  - intros Hrun. apply bind_Ok in Hrun as (st1 & H1 & Hrun).
    apply IH in Hrun as [more ->]. apply parse_line_files in H1. rewrite H1.
    destruct (Py.startswith l "diff --git"); [| eauto].
    unfold parser.append_current.
    destruct (parser.current_file st); simpl; [| eauto].
    rewrite <- app_assoc. eauto.
Qed.

Lemma finished_files_are_final_witness :
  exists more,
    Diff.files (parser.finish
                  (parser.State (Diff.Build [DiffFile.new "x"])
                     (Some (DiffFile.new "y")) "-1 +1" 1 1))
    = [DiffFile.new "x"] ++ more.
Proof.
  apply (finished_files_are_final ["--- a/y"; "+++ b/y"]
           (parser.State (Diff.Build [DiffFile.new "x"]) None "-1 +1" 1 1)).
  reflexivity.
Defined.

Lemma parse_line_sections (st st' : parser.state) (line : string) :
  parser.parse_line st line = Py.Ok st' ->
  sections st <= sections st' /\
  if Py.startswith line "+++"
  then 1 <= sections st' /\ sections st' <= sections st + 1
  else sections st' = sections st.
Proof.
  intros Hrun. unfold sections.
  destruct (Py.startswith line "+++") eqn:Hplus.
  { destruct (parse_line_new_file st line Hplus) as [path Hnew].
    rewrite Hnew in Hrun. inversion Hrun; subst; simpl.
    destruct (parser.current_file st); lia. }
  destruct (Py.startswith line "diff --git") eqn:Hsep.
  { rewrite parse_line_separator in Hrun by done. inversion Hrun; subst; simpl.
    unfold parser.append_current.
    destruct (parser.current_file st); simpl; rewrite ?length_app; simpl; lia. }
  destruct (Py.startswith line "@@") eqn:Hhunk.
  { rewrite parse_line_hunk in Hrun by done.
    apply bind_Ok in Hrun as (st1 & H1 & Hrun).
    apply read_hunk_keeps_files in H1 as [Hd Hc]. rewrite <- Hd, <- Hc.
    destruct (parser.current_file st1) eqn:Hf1; inversion Hrun; subst; simpl;
      rewrite ?Hf1; lia. }
  destruct (parser.current_file st) as [f|] eqn:Hf;
    [| rewrite parse_line_skipped in Hrun by auto; inversion Hrun; subst;
       rewrite Hf; lia].
  destruct line as [|c body];
    [rewrite parse_line_skipped in Hrun by auto; inversion Hrun; subst;
     rewrite Hf; lia |].
  rewrite (parse_line_content st f) in Hrun by done. inversion Hrun.
  repeat case_decide; simpl; rewrite ?Hf; lia.
Qed.

Lemma parse_lines_sections (ls : list string) (st st' : parser.state) :
  parser.parse_lines ls st = Py.Ok st' ->
  sections st' <= sections st + plus_lines ls /\
  (sections st' = 0 <-> sections st = 0 /\ plus_lines ls = 0).
Proof.
  unfold parser.parse_lines, plus_lines. revert st.
  induction ls as [|l ls IH]; intros st; cbn [Py.for_each].
  - intros [= ->]. cbn [filter list_filter length]. lia.
  - intros Hrun. apply bind_Ok in Hrun as (st1 & H1 & Hrun).
    apply IH in Hrun as [Hle Hzero]. apply parse_line_sections in H1 as [Hmono H1].
    rewrite filter_cons. destruct (Py.startswith l "+++") eqn:Hplus.
    + rewrite decide_True by done. cbn [length]. lia.
    + rewrite decide_False by congruence. lia.
Qed.

Lemma parse_diff_sections (diff_text : string) (d : Diff.t) :
  parser.parse_diff diff_text = Py.Ok d ->
  length (Diff.files d) <= plus_lines (Py.split diff_text parser.LF) /\
  (Diff.files d = [] <-> plus_lines (Py.split diff_text parser.LF) = 0).
Proof.
  unfold parser.parse_diff. intros Hrun.
  apply bind_Ok in Hrun as (st & Hst & Hrun). inversion Hrun; subst.
  apply parse_lines_sections in Hst as [Hle Hzero].
  assert (length (Diff.files (parser.finish st)) = sections st) as Hlen.
  { unfold sections, parser.finish, parser.append_current.
    destruct (parser.current_file st); simpl; rewrite ?length_app; simpl; lia. }
  change (sections parser.initial) with 0 in Hle, Hzero.
  split; [lia |]. rewrite <- length_zero_iff_nil, Hlen. tauto.
Qed.

(** X4: the document [parse_diff] returns has at most as many files as
    the text has lines beginning with [+++], and it has no file at all
    exactly when the text has no such line. *)
Theorem files_come_from_plus_lines (diff_text : string) (d : Diff.t) :
  parser.parse_diff diff_text = Py.Ok d ->
  length (Diff.files d) <= plus_lines (Py.split diff_text parser.LF) /\
  (Diff.files d = [] <-> plus_lines (Py.split diff_text parser.LF) = 0).
Proof. apply parse_diff_sections. Qed.

Lemma files_come_from_plus_lines_witness :
  length (Diff.files scenario_diff) <= plus_lines (Py.split scenario_text parser.LF) /\
  (Diff.files scenario_diff = [] <->
   plus_lines (Py.split scenario_text parser.LF) = 0).
Proof.
  apply (files_come_from_plus_lines scenario_text scenario_diff).
  vm_compute. reflexivity.
Defined.

(** ** Line numbers *)




(** ** Texts put together from pieces *)

Lemma str_app_cons (c : ascii) (s t : string) : String c s +:+ t = String c (s +:+ t).
Proof. reflexivity. Qed.

Lemma str_app_nil_l (t : string) : "" +:+ t = t.
Proof. reflexivity. Qed.

Lemma str_app_assoc (s t u : string) : (s +:+ t) +:+ u = s +:+ t +:+ u.
Proof.
  induction s as [|c s IH]; [done |]. by rewrite !str_app_cons, IH.
Qed.

Lemma all_chars_app (cls : ascii -> bool) (s t : string) :
  Py.all_chars cls (s +:+ t) = Py.all_chars cls s && Py.all_chars cls t.
Proof.
  induction s as [|c s IH]; [done |].
  rewrite str_app_cons. simpl. rewrite IH. by destruct (cls c).
Qed.

Lemma all_chars_impl (cls cls' : ascii -> bool) (s : string) :
  (forall c, cls c = true -> cls' c = true) ->
  Py.all_chars cls s = true -> Py.all_chars cls' s = true.
Proof.
  intros Himpl. induction s as [|c s IH]; [done |]. simpl.
  intros [Hc Hs]%andb_prop. by rewrite (Himpl c Hc), IH.
Qed.

Lemma startswith_app (p s : string) : Py.startswith (p +:+ s) p = true.
Proof.
  induction p as [|c p IH]; [done |].
  rewrite str_app_cons. simpl. by case_decide.
Qed.

Lemma slice_from_app (p s : string) : Py.slice_from (String.length p) (p +:+ s) = s.
Proof. induction p as [|c p IH]; [done |]. rewrite str_app_cons. apply IH. Qed.

(** *** Trimming *)

Lemma rstrip_cons_keep (c : ascii) (s : string) :
  Py.isspace c = false -> Py.rstrip (String c s) = String c (Py.rstrip s).
Proof. intros Hc. simpl. rewrite Hc. by destruct (Py.rstrip s). Qed.

Lemma rstrip_no_space (s : string) :
  Py.all_chars not_space s = true -> Py.rstrip s = s.
Proof.
  induction s as [|c s IH]; [done |]. simpl Py.all_chars.
  intros [Hc Hs]%andb_prop. apply negb_true_iff in Hc.
  by rewrite rstrip_cons_keep, IH.
Qed.

Lemma rstrip_app_keep (a b : string) :
  Py.rstrip b = b -> b <> "" -> Py.rstrip (a +:+ b) = a +:+ b.
Proof.
  intros Hb Hne. induction a as [|c a IH]; [done |].
  rewrite str_app_cons. simpl. rewrite IH.
  destruct (a +:+ b) eqn:Hab; [| done].
  destruct a; [| discriminate]. by rewrite str_app_nil_l in Hab.
Qed.

Lemma rstrip_app_space (a : string) : Py.rstrip (a +:+ " ") = Py.rstrip a.
Proof.
  induction a as [|c a IH]; [done |]. rewrite str_app_cons. simpl. by rewrite IH.
Qed.

(** Trimming twice is trimming once. *)
Lemma rstrip_rstrip (s : string) : Py.rstrip (Py.rstrip s) = Py.rstrip s.
Proof.
  induction s as [|c s IH]; [done |]. simpl.
  destruct (Py.rstrip s) as [|c' r] eqn:Hr.
  - destruct (Py.isspace c) eqn:Hc; [done |]. simpl. by rewrite Hc.
  - simpl in IH |- *. destruct (Py.rstrip r) eqn:Hrr.
    + destruct (Py.isspace c') eqn:Hc'; [discriminate |]. by rewrite IH.
    + by rewrite IH.
Qed.

Lemma lstrip_rstrip_head (s : string) :
  stops Py.isspace s -> stops Py.isspace (Py.rstrip s).
Proof.
  destruct s as [|c s]; [done |]. simpl. intros Hc.
  destruct (Py.rstrip s); [by rewrite Hc | done].
Qed.

Lemma lstrip_stops (s : string) : stops Py.isspace (Py.lstrip s).
Proof.
  induction s as [|c s IH]; [done |]. simpl.
  destruct (Py.isspace c) eqn:Hc; [done | by simpl].
Qed.

Lemma lstrip_id (s : string) : stops Py.isspace s -> Py.lstrip s = s.
Proof. destruct s as [|c s]; [done |]. simpl. by intros ->. Qed.

Lemma strip_strip (s : string) : Py.strip (Py.strip s) = Py.strip s.
Proof.
  unfold Py.strip.
  rewrite (lstrip_id (Py.rstrip _)) by apply lstrip_rstrip_head, lstrip_stops.
  apply rstrip_rstrip.
Qed.

(** ** Lines the hunk pattern matches *)

(** A greedy repetition takes a whole run when the text stops there and
    the rest of the pattern goes through. *)
Lemma match_star_run (cls : ascii -> bool) (d s : string) (caps r : re.captures)
    (k : re.cont) :
  Py.all_chars cls d = true -> stops cls s ->
  k d s caps = Some r ->
  re.match_star cls (d +:+ s) caps k = Some r.
Proof.
  revert k. induction d as [|c d IH]; intros k Hd Hs Hk.
  - rewrite str_app_nil_l. destruct s as [|c s]; simpl; [done |].
    simpl in Hs. by rewrite Hs.
  - rewrite str_app_cons. simpl in Hd |- *.
    apply andb_prop in Hd as [Hc Hd]. rewrite Hc.
    by rewrite (IH (fun used rest => k (String c used) rest)).
Qed.

Lemma match_star_any (cls : ascii -> bool) (s : string) (caps r : re.captures)
    (k : re.cont) :
  (forall used rest, k used rest caps = Some r) ->
  re.match_star cls s caps k = Some r.
Proof.
  revert k. induction s as [|c s IH]; intros k Hk; simpl; [done |].
  destruct (cls c); [| done]. by rewrite IH.
Qed.

Lemma match_seq_lit (text s : string) (p : re.pattern) (caps : re.captures) :
  re.match_seq (re.Lit text :: p) (text +:+ s) caps = re.match_seq p s caps.
Proof. simpl. by rewrite startswith_app, slice_from_app. Qed.

Lemma match_seq_number (d s : string) (p : re.pattern) (caps r : re.captures) :
  Py.all_digits d = true -> d <> "" -> stops re.digit s ->
  re.match_seq p s (caps ++ [d]) = Some r ->
  re.match_seq (re.Cap (re.Plus re.digit) :: p) (d +:+ s) caps = Some r.
Proof.
  intros Hd Hne Hs Hk. destruct d as [|c d]; [done |].
  rewrite str_app_cons. simpl in Hd |- *.
  apply andb_prop in Hd as [Hc Hd]. unfold re.digit at 1. rewrite Hc.
  by apply match_star_run.
Qed.

(** The optional count, [,?\d*], before a text that begins with neither a
    comma nor a digit. *)
Lemma match_seq_count (c s : string) (p : re.pattern) (caps r : re.captures) :
  count_part c -> stops re.digit s -> stops (fun a => bool_decide (a = ","%char)) s ->
  re.match_seq p s caps = Some r ->
  re.match_seq (re.Opt "," :: re.Star re.digit :: p) (c +:+ s) caps = Some r.
Proof.
  intros [-> | (k & -> & Hk)] Hdigit Hcomma Hrest.
  - rewrite str_app_nil_l. cbn [re.match_seq re.match_item].
    pose proof (match_star_run re.digit "" s caps r
                  (fun _ rest caps' => re.match_seq p rest caps') eq_refl Hdigit Hrest)
      as Hstar.
    rewrite str_app_nil_l in Hstar.
    destruct s as [|a s]; [exact Hstar |].
    simpl in Hcomma. apply bool_decide_eq_false in Hcomma.
    by rewrite decide_False.
  - rewrite str_app_assoc, !str_app_cons, str_app_nil_l.
    cbn [re.match_seq re.match_item]. rewrite decide_True by done.
    by rewrite (match_star_run re.digit k s caps r).
Qed.

Lemma hunk_line_matches (d1 c1 d2 c2 tail : string) :
  Py.all_digits d1 = true -> d1 <> "" -> count_part c1 ->
  Py.all_digits d2 = true -> d2 <> "" -> count_part c2 ->
  re.match_ parser.hunk_pattern (hunk_line d1 c1 d2 c2 tail) = Some [d1; d2].
Proof.
  intros Hd1 Hn1 Hc1 Hd2 Hn2 Hc2.
  unfold re.match_, parser.hunk_pattern, hunk_line, hunk_range_text.
  change ("@@ " +:+ ("-" +:+ ?x) +:+ ?y) with ("@@ -" +:+ x +:+ y).
  rewrite match_seq_lit, !str_app_assoc.
  apply match_seq_number; [done | done | |].
  { destruct Hc1 as [-> | (k & -> & _)]; done. }
  apply match_seq_count; [done | done | done |].
  rewrite match_seq_lit.
  apply match_seq_number; [done | done | |].
  { destruct Hc2 as [-> | (k & -> & _)]; done. }
  apply match_seq_count; [done | done | done |].
  rewrite match_seq_lit. simpl. by apply match_star_any.
Qed.

(** *** The range text *)

Lemma split_from_plain (piece tail : string) :
  Py.all_chars not_at piece = true ->
  Py.split_from "@@" 0 (piece +:+ "@@" +:+ tail)
  = piece :: Py.split_from "@@" 0 tail.
Proof.
  induction piece as [|c piece IH]; intros Hpiece.
  - rewrite str_app_nil_l, !str_app_cons, str_app_nil_l. reflexivity.
  - rewrite str_app_cons. simpl in Hpiece. apply andb_prop in Hpiece as [Hc Hpiece].
    cbn [Py.split_from]. simpl Py.startswith.
    unfold not_at in Hc. apply negb_true_iff, bool_decide_eq_false in Hc.
    rewrite decide_False by done. by rewrite IH.
Qed.

Lemma digits_not_at (d : string) :
  Py.all_digits d = true -> Py.all_chars not_at d = true.
Proof.
  apply all_chars_impl. intros c Hc. unfold not_at.
  apply negb_true_iff, bool_decide_eq_false. intros ->. discriminate.
Qed.

Lemma digits_not_space (d : string) :
  Py.all_digits d = true -> Py.all_chars not_space d = true.
Proof.
  apply all_chars_impl. intros c. unfold Py.isdigit, not_space, Py.isspace.
  destruct (N_of_ascii c) as [|n]; [done |].
  intros H. apply negb_true_iff.
  repeat match goal with
         | |- context [(?a <=? ?b)%N] => destruct (N.leb_spec a b)
         | |- context [(?a =? ?b)%N] => destruct (N.eqb_spec a b)
         | H : context [(?a <=? ?b)%N] |- _ => destruct (N.leb_spec a b)
         end; simpl in *; try done; lia.
Qed.

Lemma count_not_at (c : string) : count_part c -> Py.all_chars not_at c = true.
Proof.
  intros [-> | (k & -> & Hk)]; [done |].
  rewrite str_app_cons, str_app_nil_l. simpl. by apply digits_not_at.
Qed.

Lemma count_not_space (c : string) : count_part c -> Py.all_chars not_space c = true.
Proof.
  intros [-> | (k & -> & Hk)]; [done |].
  rewrite str_app_cons, str_app_nil_l. simpl. by apply digits_not_space.
Qed.

Lemma hunk_line_range (d1 c1 d2 c2 tail : string) :
  Py.all_digits d1 = true -> count_part c1 ->
  Py.all_digits d2 = true -> d2 <> "" -> count_part c2 ->
  parser.hunk_range (hunk_line d1 c1 d2 c2 tail)
  = Py.Ok (hunk_range_text d1 c1 d2 c2).
Proof.
  intros Hd1 Hc1 Hd2 Hn2 Hc2. unfold parser.hunk_range.
  rewrite contains_startswith by reflexivity.
  unfold Py.split, hunk_line.
  rewrite !str_app_cons, str_app_nil_l.
  cbn [Py.split_from]. simpl Py.startswith.
  cbn [String.length Nat.sub Py.split_from].
  change (String " " (String "@" (String "@" ("" +:+ tail))))
    with (" " +:+ "@@" +:+ tail).
  rewrite <- str_app_assoc, split_from_plain.
  - cbn [Py.getitem lookup list_lookup Py.bind]. f_equal. unfold Py.strip.
    change (Py.lstrip (String " " ?x)) with (Py.lstrip x).
    rewrite lstrip_id by exact eq_refl. rewrite rstrip_app_space.
    assert (hunk_range_text d1 c1 d2 c2
            = ("-" +:+ d1 +:+ c1 +:+ " +") +:+ d2 +:+ c2) as ->
      by (unfold hunk_range_text; by rewrite !str_app_assoc).
    apply rstrip_app_keep.
    + apply rstrip_no_space. rewrite all_chars_app.
      by rewrite digits_not_space, count_not_space.
    + destruct d2; [done | discriminate].
  - unfold hunk_range_text. rewrite !all_chars_app.
    rewrite (digits_not_at d1), (digits_not_at d2), (count_not_at c1),
      (count_not_at c2) by done. reflexivity.
Qed.

Lemma int_number (d : string) : number d -> Py.int d = Py.Ok (Py.int_digits 0 d).
Proof.
  intros (Hd & Hne & Hlen). unfold Py.int. rewrite Hd.
  rewrite bool_decide_eq_false_2 by done. simpl.
  by destruct (Z.leb_spec (Z.of_nat (String.length d)) Py.int_max_str_digits);
    [| lia].
Qed.

(** X6: a hunk line in the usual form, [@@ -old[,count] +new[,count] @@]
    followed by anything, is always recognised: the counters become the two
    start numbers, the current hunk header becomes the range text
    [-old[,count] +new[,count]], and the hunk-header record holding the whole
    line goes to the open file, if there is one. *)
Theorem usual_hunk_line_is_read
    (st : parser.state) (d1 c1 d2 c2 tail : string) :
  number d1 -> count_part c1 -> number d2 -> count_part c2 ->
  parser.parse_line st (hunk_line d1 c1 d2 c2 tail)
  = Py.Ok (parser.State (parser.diff st)
             ((fun f =>
                 parser.append_line f
                   (DiffLine.Build "@" (hunk_line d1 c1 d2 c2 tail) None None
                      (DiffFile.path f) (hunk_line d1 c1 d2 c2 tail)))
                <$> parser.current_file st)
             (hunk_range_text d1 c1 d2 c2)
             (Py.int_digits 0 d1) (Py.int_digits 0 d2)).
Proof.
  intros Hd1 Hc1 Hd2 Hc2.
  rewrite parse_line_hunk by reflexivity. unfold parser.read_hunk.
  rewrite hunk_line_matches by (done || apply Hd1 || apply Hd2).
  cbn [re.group Py.getitem Nat.sub lookup list_lookup Py.bind].
  rewrite (int_number d1 Hd1). cbn [Py.bind].
  rewrite (int_number d2 Hd2). cbn [Py.bind].
  rewrite hunk_line_range by (done || apply Hd1 || apply Hd2). cbn [Py.bind].
  cbn [parser.current_file parser.diff parser.current_hunk parser.old_line_no
       parser.new_line_no].
  by destruct (parser.current_file st).
Qed.

Lemma usual_hunk_line_is_read_witness :
  parser.parse_line open_state "@@ -12,5 +30,7 @@ def f():"
  = Py.Ok (parser.State (Diff.Build [])
             (Some (parser.append_line (DiffFile.new "x")
                      (DiffLine.Build "@" "@@ -12,5 +30,7 @@ def f():" None None "x"
                         "@@ -12,5 +30,7 @@ def f():")))
             "-12,5 +30,7" 12 30).
Proof.
  apply (usual_hunk_line_is_read open_state "12" ",5" "30" ",7" " def f():").
  - repeat split; [discriminate | vm_compute; discriminate].
  - right. by exists "5".
  - repeat split; [discriminate | vm_compute; discriminate].
  - right. by exists "7".
Defined.

(** ** File paths *)

Lemma parse_line_new_file_path (st : parser.state) (line : string) :
  Py.startswith line "+++" = true ->
  parser.parse_line st line
  = Py.Ok (parser.State (parser.diff st)
             (Some (DiffFile.new
                      (if Py.startswith (Py.strip (Py.slice_from 4 line)) "b/"
                       then Py.slice_from 2 (Py.strip (Py.slice_from 4 line))
                       else Py.strip (Py.slice_from 4 line))))
             (parser.current_hunk st) (parser.old_line_no st) (parser.new_line_no st)).
Proof.
  intros Hplus. unfold parser.parse_line.
  rewrite (startswith_exclusive line "+" "d" "++" "iff --git") by done.
  by rewrite Hplus.
Qed.

(** X7: the path of a file section is what follows [+++ b/] on its marker
    line, up to trailing blanks; after a bare [+++ ] the path is the rest of
    the line, trimmed, when that rest does not begin with [b/]. *)
Theorem path_follows_plus_marker (st : parser.state) (p : string) :
  Py.rstrip p = p ->
  parser.parse_line st ("+++ b/" +:+ p)
  = Py.Ok (parser.State (parser.diff st) (Some (DiffFile.new p))
             (parser.current_hunk st) (parser.old_line_no st) (parser.new_line_no st))
  /\
  (stops Py.isspace p -> Py.startswith p "b/" = false ->
   parser.parse_line st ("+++ " +:+ p)
   = Py.Ok (parser.State (parser.diff st) (Some (DiffFile.new p))
              (parser.current_hunk st) (parser.old_line_no st)
              (parser.new_line_no st))).
Proof.
  intros Hp. split.
  - rewrite parse_line_new_file_path by reflexivity.
    change (Py.slice_from 4 ("+++ b/" +:+ p)) with ("b/" +:+ p).
    assert (Py.strip ("b/" +:+ p) = "b/" +:+ p) as ->.
    { unfold Py.strip. rewrite lstrip_id by exact eq_refl.
      rewrite !str_app_cons, str_app_nil_l.
      by rewrite !rstrip_cons_keep, Hp. }
    by rewrite startswith_app.
  - intros Hhead Hb. rewrite parse_line_new_file_path by reflexivity.
    change (Py.slice_from 4 ("+++ " +:+ p)) with p.
    assert (Py.strip p = p) as ->
      by (unfold Py.strip; by rewrite lstrip_id, Hp).
    by rewrite Hb.
Qed.

Lemma path_follows_plus_marker_witness :
  parser.parse_line open_state "+++ b/src/main.py"
  = Py.Ok (parser.State (Diff.Build []) (Some (DiffFile.new "src/main.py"))
             "-1 +1" 1 1)
  /\
  parser.parse_line open_state "+++ /dev/null"
  = Py.Ok (parser.State (Diff.Build []) (Some (DiffFile.new "/dev/null"))
             "-1 +1" 1 1).
Proof.
  split.
  - exact (proj1 (path_follows_plus_marker open_state "src/main.py" eq_refl)).
  - exact (proj2 (path_follows_plus_marker open_state "/dev/null" eq_refl)
             eq_refl eq_refl).
Defined.

(** X8: [parse_diff] returns a document for every text whose hunk headers
    keep their numbers within what [int()] converts; no other line can make
    it raise. *)
Theorem parse_diff_returns_for_short_numbers (diff_text : string) :
  Forall short_numbers (Py.split diff_text parser.LF) ->
  exists d, parser.parse_diff diff_text = Py.Ok d.
Proof. apply parse_diff_total. Qed.

Lemma scenario_short_numbers :
  Forall short_numbers (Py.split scenario_text parser.LF).
Proof.
  let ls := eval vm_compute in (Py.split scenario_text parser.LF) in
  change (Py.split scenario_text parser.LF) with ls.
  repeat (constructor;
          [unfold short_numbers; intros m g Hm Hg; vm_compute in Hm;
           first [ discriminate
                 | injection Hm as <-; rewrite !elem_of_cons in Hg;
                   destruct Hg as [-> | [-> | Hg]];
                   [vm_compute; discriminate | vm_compute; discriminate
                   | by inversion Hg] ] |]).
  constructor.
Qed.

Lemma parse_diff_returns_for_short_numbers_witness :
  exists d, parser.parse_diff scenario_text = Py.Ok d.
Proof.
  apply parse_diff_returns_for_short_numbers. apply scenario_short_numbers.
Defined.

(** ** More on dictionaries *)

Section DictOrder.
Context {K V : Type} `{EqDecision K}.
Implicit Types (d : Py.dict K V) (k : K) (v : V).

Lemma dict_get_set_other d k k' v :
  k <> k' -> Py.dict_get (Py.dict_set d k v) k' = Py.dict_get d k'.
Proof.
  intros Hne. induction d as [|[k0 v0] d IH]; simpl.
  - by rewrite decide_False.
  - destruct (decide (k0 = k)) as [-> | Hne0]; simpl.
    + by rewrite !decide_False.
    + by rewrite IH.
Qed.

Lemma dict_get_None d k : Py.dict_get d k = None <-> k ∉ d.*1.
Proof.
  induction d as [|[k0 v0] d IH]; simpl.
  - split; [intros _; apply not_elem_of_nil | done].
  - rewrite not_elem_of_cons. destruct (decide (k0 = k)) as [-> | Hne].
    + split; [done | intros [Hk _]; by destruct Hk].
    + rewrite IH. split; [intros Hd; split; [by intros -> | done] | by intros [_ Hd]].
Qed.

(** A key that is there keeps its place when its value is replaced. *)
Lemma dict_set_present_keys d k v :
  is_Some (Py.dict_get d k) -> (Py.dict_set d k v).*1 = d.*1.
Proof.
  induction d as [|[k0 v0] d IH]; simpl.
  - intros [? ?]. discriminate.
  - destruct (decide (k0 = k)) as [-> | Hne]; simpl; [done |].
    intros Hsome. f_equal. by apply IH.
Qed.

Lemma dict_set_same d k v : Py.dict_get d k = Some v -> Py.dict_set d k v = d.
Proof.
  induction d as [|[k0 v0] d IH]; simpl; [done |].
  destruct (decide (k0 = k)) as [-> | Hne]; [by intros [= ->] |].
  intros Hget. by rewrite IH.
Qed.

Lemma dict_set_keys d k v :
  (Py.dict_set d k v).*1 = if Py.dict_contains d k then d.*1 else d.*1 ++ [k].
Proof.
  unfold Py.dict_contains. destruct (Py.dict_get d k) eqn:Hget.
  - by apply dict_set_present_keys.
  - by rewrite dict_set_fresh, fmap_app.
Qed.

Lemma dict_set_NoDup d k v : NoDup d.*1 -> NoDup (Py.dict_set d k v).*1.
Proof.
  intros Hd. rewrite dict_set_keys. unfold Py.dict_contains.
  destruct (Py.dict_get d k) eqn:Hget; [done |].
  apply NoDup_app. split; [done |]. split; [| apply NoDup_singleton].
  intros x Hx ->%list_elem_of_singleton. by apply dict_get_None in Hget.
Qed.

Lemma dict_set_elem d k v k' v' :
  (k', v') ∈ Py.dict_set d k v -> (k', v') = (k, v) \/ (k', v') ∈ d.
Proof.
  induction d as [|[k0 v0] d IH]; simpl.
  - intros ->%list_elem_of_singleton. by left.
  - destruct (decide (k0 = k)) as [-> | Hne]; rewrite !elem_of_cons.
    + intros [-> | Hin]; [by left | right; by right].
    + intros [-> | Hin]; [right; by left |].
      destruct (IH Hin); [by left | right; by right].
Qed.

Lemma dict_remove_elem d k k' v' : (k', v') ∈ Py.dict_remove d k -> (k', v') ∈ d.
Proof.
  induction d as [|[k0 v0] d IH]; simpl; [done |].
  case_decide; rewrite ?elem_of_cons; [by right |].
  intros [-> | Hin]; [by left | right; by apply IH].
Qed.

Lemma dict_remove_keys_sub d k x : x ∈ (Py.dict_remove d k).*1 -> x ∈ d.*1.
Proof.
  induction d as [|[k0 v0] d IH]; simpl; [done |].
  case_decide; simpl; rewrite ?elem_of_cons; [by right |].
  intros [-> | Hin]; [by left | right; by apply IH].
Qed.

Lemma dict_remove_NoDup d k : NoDup d.*1 -> NoDup (Py.dict_remove d k).*1.
Proof.
  induction d as [|[k0 v0] d IH]; simpl; [done |].
  intros [Hk0 Hd]%NoDup_cons. case_decide; [done |]. simpl.
  apply NoDup_cons. split; [| by apply IH].
  intros Hin. apply Hk0. by apply (dict_remove_keys_sub d k).
Qed.

(** With each key held once, a removed key is gone. *)
Lemma dict_get_remove_eq d k :
  NoDup d.*1 -> Py.dict_get (Py.dict_remove d k) k = None.
Proof.
  induction d as [|[k0 v0] d IH]; simpl; [done |].
  intros [Hk0 Hd]%NoDup_cons. destruct (decide (k0 = k)) as [-> | Hne].
  - by apply dict_get_None.
  - simpl. rewrite decide_False by done. by apply IH.
Qed.

Lemma dict_get_remove_other d k k' :
  k <> k' -> Py.dict_get (Py.dict_remove d k) k' = Py.dict_get d k'.
Proof.
  intros Hne. induction d as [|[k0 v0] d IH]; simpl; [done |].
  destruct (decide (k0 = k)) as [-> | Hne0]; simpl.
  - by rewrite decide_False.
  - by rewrite IH.
Qed.

(** Removing a key that was put in as a new one gives the dictionary back. *)
Lemma dict_remove_set_fresh d k v :
  Py.dict_get d k = None -> Py.dict_remove (Py.dict_set d k v) k = d.
Proof.
  induction d as [|[k0 v0] d IH]; simpl.
  - intros _. by rewrite decide_True.
  - destruct (decide (k0 = k)) as [-> | Hne]; [discriminate |]. simpl.
    rewrite decide_False by done. intros Hnone. by rewrite IH.
Qed.

End DictOrder.

(** ** The handlers on a line of the document *)

Lemma find_is_first (lines : list DiffLine.t) (p : nat) (line : DiffLine.t) :
  lines !! p = Some line ->
  first_occurrence lines (app.find_file_line_idx lines line) line.
Proof.
  intros Hp. unfold app.find_file_line_idx.
  destruct (list_find (fun file_line => file_line = line) lines) as [[q x]|] eqn:Hfind.
  - apply list_find_Some in Hfind as (Hq & -> & Hmin).
    split; [done |]. intros j Hj Hline. by apply (Hmin j line).
  - apply list_find_None in Hfind. rewrite Forall_forall in Hfind.
    destruct (Hfind line); [by eapply list_elem_of_lookup_2 | done].
Qed.

Lemma init_unfold (d : Diff.t) :
  app.init d
  = app.Build d 0 false None (flat_lines (Diff.files d))
      (dense 0 (owners (Diff.files d))).
Proof. unfold app.init. by rewrite flatten_spec. Qed.

Lemma line_to_file_target
    (files : list DiffFile.t) (fi p : nat) (f : DiffFile.t) (line : DiffLine.t) :
  files !! fi = Some f -> DiffFile.lines f !! p = Some line ->
  Py.dict_getitem (dense 0 (owners files)) (flat_index files fi p) = Py.Ok fi.
Proof.
  intros Hfile Hline. unfold Py.dict_getitem.
  pose proof (dense_get (owners files) 0 (flat_index files fi p)) as Hget.
  rewrite Nat.add_0_l in Hget.
  by rewrite Hget, (owners_target _ _ _ _ _ Hfile Hline).
Qed.

(** [action_delete_comment] with the focus on a line of the document. *)
Lemma delete_on_target
    (d : Diff.t) (fi p : nat) (f : DiffFile.t) (line : DiffLine.t) :
  Diff.files d !! fi = Some f ->
  DiffFile.lines f !! p = Some line ->
  app.action_delete_comment (app.init d) (Some (widget_at d fi p line))
  = Py.Ok
      (if Py.dict_contains (DiffFile.comments f)
            (app.find_file_line_idx (DiffFile.lines f) line)
       then app.Build
              (Diff.Build
                 (<[fi := DiffFile.Build (DiffFile.path f) (DiffFile.lines f)
                            (Py.dict_remove (DiffFile.comments f)
                               (app.find_file_line_idx (DiffFile.lines f) line))]>
                    (Diff.files d)))
              0 false None (flat_lines (Diff.files d))
              (dense 0 (owners (Diff.files d)))
       else app.init d).
Proof.
  intros Hfile Hline. rewrite init_unfold at 1.
  unfold app.action_delete_comment, widget_at.
  cbn [app.editing app.line_to_file app.diff app.index app.diff_line
       app.current_line_idx app.edit_line_idx app.all_lines].
  rewrite (line_to_file_target _ _ _ _ _ Hfile Hline). cbn [Py.bind].
  unfold Py.getitem. rewrite Hfile. cbn [Py.bind].
  unfold Py.dict_contains, Py.dict_delitem.
  destruct (Py.dict_get (DiffFile.comments f) _) eqn:Hget; cbn [Py.bind].
  - reflexivity.
  - by rewrite init_unfold.
Qed.

(** [action_edit_comment] with the focus on a line of the document. *)
Lemma edit_on_target
    (d : Diff.t) (fi p : nat) (f : DiffFile.t) (line : DiffLine.t) :
  Diff.files d !! fi = Some f ->
  DiffFile.lines f !! p = Some line ->
  app.action_edit_comment (app.init d) (Some (widget_at d fi p line))
  = Py.Ok
      match Py.dict_get (DiffFile.comments f)
              (app.find_file_line_idx (DiffFile.lines f) line) with
      | Some existing => (commenting d fi p, Some (Comment.content existing))
      | None => (app.init d, None)
      end.
Proof.
  intros Hfile Hline. unfold commenting. rewrite !init_unfold.
  unfold app.action_edit_comment, app.action_create_comment, widget_at.
  cbn [app.editing app.line_to_file app.diff app.index app.diff_line
       app.current_line_idx app.edit_line_idx app.all_lines].
  rewrite (line_to_file_target _ _ _ _ _ Hfile Hline). cbn [Py.bind].
  unfold Py.getitem. rewrite Hfile. cbn [Py.bind].
  unfold Py.dict_contains, Py.dict_getitem.
  by destruct (Py.dict_get (DiffFile.comments f) _) eqn:Hget.
Qed.

Lemma skeleton_insert (d : Diff.t) (fi : nat) (f f' : DiffFile.t) :
  Diff.files d !! fi = Some f ->
  DiffFile.path f' = DiffFile.path f ->
  DiffFile.lines f' = DiffFile.lines f ->
  skeleton (Diff.Build (<[fi := f']> (Diff.files d))) = skeleton d.
Proof.
  intros Hfile Hpath Hlines. unfold skeleton. cbn [Diff.files].
  rewrite list_fmap_insert, Hpath, Hlines.
  apply list_insert_id. by rewrite list_lookup_fmap, Hfile.
Qed.

Lemma get_comment_insert_other
    (d : Diff.t) (fi fi' p' : nat) (f' : DiffFile.t) :
  fi <> fi' ->
  get_comment (Diff.Build (<[fi := f']> (Diff.files d))) fi' p' = get_comment d fi' p'.
Proof.
  intros Hne. unfold get_comment. cbn [Diff.files].
  by rewrite list_lookup_insert_ne.
Qed.

Lemma get_comment_insert_same
    (d : Diff.t) (fi p' : nat) (f f' : DiffFile.t) :
  Diff.files d !! fi = Some f ->
  get_comment (Diff.Build (<[fi := f']> (Diff.files d))) fi p'
  = Py.dict_get (DiffFile.comments f') p'.
Proof.
  intros Hfile. unfold get_comment. cbn [Diff.files].
  by rewrite list_lookup_insert_eq by (by apply lookup_lt_Some in Hfile).
Qed.

(** X9: a submission with text on a line of the document stores one
    comment, at the first position of the target's file whose record equals
    the target line, and changes nothing else: every other position of every
    file keeps the comment it had or its lack of one, and the paths and line
    sequences of all files stay as they were. *)
Theorem submission_touches_one_position
    (d : Diff.t) (fi p : nat) (f : DiffFile.t) (line : DiffLine.t) (value : string) :
  Diff.files d !! fi = Some f ->
  DiffFile.lines f !! p = Some line ->
  Py.strip value <> "" ->
  exists self',
    app.on_input_submitted (commenting d fi p) value = Py.Ok self' /\
    get_comment (app.diff self') fi (app.find_file_line_idx (DiffFile.lines f) line)
    = Some (app.make_comment f line (Py.strip value)) /\
    (forall fi' p',
       (fi', p') <> (fi, app.find_file_line_idx (DiffFile.lines f) line) ->
       get_comment (app.diff self') fi' p' = get_comment d fi' p') /\
    skeleton (app.diff self') = skeleton d.
Proof.
  intros Hfile Hline Htext. eexists.
  split; [by apply (submit_on_target d fi p f line) |]. cbn [app.diff].
  split; [by apply get_comment_after_set |]. split.
  - intros fi' p' Hne. destruct (decide (fi = fi')) as [<- | Hfi].
    + rewrite (get_comment_insert_same d fi p' f) by done.
      unfold get_comment. rewrite Hfile. simpl.
      apply dict_get_set_other. congruence.
    + by apply get_comment_insert_other.
  - by apply (skeleton_insert d fi f).
Qed.

Lemma submission_touches_one_position_witness :
  exists self',
    app.on_input_submitted (commenting scenario_diff 0 3) "why?" = Py.Ok self' /\
    get_comment (app.diff self') 0 1 = None /\
    skeleton (app.diff self') = skeleton scenario_diff.
Proof.
  destruct (submission_touches_one_position scenario_diff 0 3
              (DiffFile.Build "x" scenario_lines Py.dict_empty)
              (DiffLine.Build "+" "line2b" None (Some 2%Z) "x" "-1,2 +1,3") "why?"
              eq_refl eq_refl)
    as (self' & Hrun & _ & Hother & Hskeleton); [discriminate |].
  exists self'. split; [exact Hrun |]. split; [| exact Hskeleton].
  rewrite (Hother 0 1); [reflexivity | vm_compute; discriminate].
Defined.

Lemma entries_single_length (f : DiffFile.t) :
  length (entries [f]) = length (commented f).
Proof.
  unfold entries, commented, Py.dict_items. rewrite bind_singleton.
  by rewrite !length_fmap.
Qed.

Lemma entries_insert_length (files : list DiffFile.t) (fi : nat) (f f' : DiffFile.t) :
  files !! fi = Some f ->
  length (commented f') = length (commented f) ->
  length (entries (<[fi := f']> files)) = length (entries files).
Proof.
  intros Hfile Hlen.
  rewrite insert_take_drop by (by apply lookup_lt_Some in Hfile).
  rewrite <- (take_drop_middle files fi f Hfile) at 3.
  unfold entries. rewrite !bind_app, !bind_cons, !length_app.
  pose proof (entries_single_length f) as Hf.
  pose proof (entries_single_length f') as Hf'.
  unfold entries in Hf, Hf'. rewrite bind_singleton in Hf, Hf'.
  rewrite Hf, Hf', Hlen. done.
Qed.

(** X10: submitting again for a position that has a comment replaces the
    comment where it stands: the commented positions of the file and their
    order are as before, so the feedback record keeps its length, and the
    position now holds the new comment. *)
Theorem resubmission_replaces_in_place
    (now : string) (d : Diff.t) (fi p : nat) (f : DiffFile.t) (line : DiffLine.t)
    (value : string) (c0 : Comment.t) :
  Diff.files d !! fi = Some f ->
  first_occurrence (DiffFile.lines f) p line ->
  Py.strip value <> "" ->
  get_comment d fi p = Some c0 ->
  exists self' f',
    app.on_input_submitted (commenting d fi p) value = Py.Ok self' /\
    Diff.files (app.diff self') !! fi = Some f' /\
    commented f' = commented f /\
    get_comment (app.diff self') fi p
    = Some (app.make_comment f line (Py.strip value)) /\
    length (Feedback.comments (output.generate_feedback now (app.diff self')))
    = length (Feedback.comments (output.generate_feedback now d)).
Proof.
  intros Hfile Hfirst Htext Hold.
  eexists. exists (app.set_comment f p (app.make_comment f line (Py.strip value))).
  split; [apply (submit_on_target d fi p f line); [done | apply Hfirst | done] |].
  rewrite (find_first_occurrence _ p line Hfirst). cbn [app.diff Diff.files].
  unfold get_comment in Hold. rewrite Hfile in Hold. simpl in Hold.
  assert (commented (app.set_comment f p (app.make_comment f line (Py.strip value)))
          = commented f) as Hkeys.
  { unfold commented, app.set_comment. cbn [DiffFile.comments].
    apply dict_set_present_keys. by rewrite Hold. }
  split; [apply list_lookup_insert_eq; by apply lookup_lt_Some in Hfile |].
  split; [done |]. split; [by apply get_comment_after_set |].
  cbn [output.generate_feedback Feedback.comments Diff.files].
  rewrite !collect_entries. apply (entries_insert_length _ _ f); [done |].
  by rewrite Hkeys.
Qed.

Lemma resubmission_replaces_in_place_witness :
  exists self' f',
    app.on_input_submitted
      (commenting (Diff.Build
                     [DiffFile.Build "x" scenario_lines
                        [(3, Comment.Build "x" (Some 2%Z) "-1,2 +1,3" "a" "line2b");
                         (1, Comment.Build "x" (Some 1%Z) "-1,2 +1,3" "b" "line1")]])
         0 3) "c" = Py.Ok self' /\
    Diff.files (app.diff self') !! 0 = Some f' /\
    commented f' = [3; 1].
Proof.
  destruct (resubmission_replaces_in_place "now"
              (Diff.Build
                 [DiffFile.Build "x" scenario_lines
                    [(3, Comment.Build "x" (Some 2%Z) "-1,2 +1,3" "a" "line2b");
                     (1, Comment.Build "x" (Some 1%Z) "-1,2 +1,3" "b" "line1")]])
              0 3 _ (DiffLine.Build "+" "line2b" None (Some 2%Z) "x" "-1,2 +1,3")
              "c" (Comment.Build "x" (Some 2%Z) "-1,2 +1,3" "a" "line2b") eq_refl)
    as (self' & f' & Hrun & Hf' & Hkeys & _).
  - split; [reflexivity |].
    intros [|[|[|q]]] Hq; [discriminate | discriminate | discriminate | lia].
  - discriminate.
  - reflexivity.
  - exists self', f'. split; [exact Hrun |]. split; [exact Hf' | exact Hkeys].
Defined.

(** X11: deleting on a line of the document never raises; it removes the
    comment at the first position of the file whose record equals the line,
    leaves every other position and all paths and lines as they were, and
    changes nothing at all when that position has no comment. *)
Theorem delete_removes_one_comment
    (d : Diff.t) (fi p : nat) (f : DiffFile.t) (line : DiffLine.t) :
  Diff.files d !! fi = Some f ->
  DiffFile.lines f !! p = Some line ->
  NoDup (commented f) ->
  exists self',
    app.action_delete_comment (app.init d) (Some (widget_at d fi p line))
    = Py.Ok self' /\
    get_comment (app.diff self') fi (app.find_file_line_idx (DiffFile.lines f) line)
    = None /\
    (forall fi' p',
       (fi', p') <> (fi, app.find_file_line_idx (DiffFile.lines f) line) ->
       get_comment (app.diff self') fi' p' = get_comment d fi' p') /\
    skeleton (app.diff self') = skeleton d /\
    (get_comment d fi (app.find_file_line_idx (DiffFile.lines f) line) = None ->
     self' = app.init d).
Proof.
  intros Hfile Hline Hnodup. eexists.
  split; [by apply (delete_on_target d fi p f line) |].
  set (q := app.find_file_line_idx (DiffFile.lines f) line).
  assert (get_comment d fi q = Py.dict_get (DiffFile.comments f) q) as Hq
    by (unfold get_comment; by rewrite Hfile).
  unfold Py.dict_contains.
  destruct (Py.dict_get (DiffFile.comments f) q) as [c|] eqn:Hget.
  - cbn [app.diff]. split; [| split; [| split]].
    + rewrite (get_comment_insert_same d fi q f) by done.
      by apply dict_get_remove_eq.
    + intros fi' p' Hne. destruct (decide (fi = fi')) as [<- | Hfi].
      * rewrite (get_comment_insert_same d fi p' f) by done.
        unfold get_comment. rewrite Hfile. simpl.
        apply dict_get_remove_other. congruence.
      * by apply get_comment_insert_other.
    + by apply (skeleton_insert d fi f).
    + by rewrite Hq.
  - rewrite init_unfold. cbn [app.diff]. by rewrite Hq.
Qed.

Lemma delete_removes_one_comment_witness :
  get_comment annotated_diff 0 1
  = Some (Comment.Build "x" (Some 1%Z) "-1,2 +1,3" "b" "line1") /\
  exists self',
    app.action_delete_comment (app.init annotated_diff)
      (Some (widget_at annotated_diff 0 1
               (DiffLine.Build " " "line1" (Some 1%Z) (Some 1%Z) "x" "-1,2 +1,3")))
    = Py.Ok self' /\
    get_comment (app.diff self') 0 1 = None /\
    skeleton (app.diff self') = skeleton annotated_diff.
Proof.
  split; [reflexivity |].
  destruct (delete_removes_one_comment annotated_diff 0 1
              (DiffFile.Build "x" scenario_lines
                 [ (1, Comment.Build "x" (Some 1%Z) "-1,2 +1,3" "b" "line1") ])
              (DiffLine.Build " " "line1" (Some 1%Z) (Some 1%Z) "x" "-1,2 +1,3")
              eq_refl eq_refl)
    as (self' & Hrun & Hnone & _ & Hskel & _).
  - apply NoDup_singleton.
  - exists self'. split; [exact Hrun |]. split; [exact Hnone | exact Hskel].
Defined.

Lemma file_eta (f : DiffFile.t) :
  DiffFile.Build (DiffFile.path f) (DiffFile.lines f) (DiffFile.comments f) = f.
Proof. by destruct f. Qed.

Lemma diff_eta (d : Diff.t) : Diff.Build (Diff.files d) = d.
Proof. by destruct d. Qed.

(** X12: making a comment from a line and deleting on the same line gives
    back the document exactly as it was, when the position the comment is
    stored under, the first position of the file whose record equals the
    line, had no comment before. *)
Theorem create_then_delete_restores
    (d : Diff.t) (fi p : nat) (f : DiffFile.t) (line : DiffLine.t) (value : string) :
  Diff.files d !! fi = Some f ->
  DiffFile.lines f !! p = Some line ->
  Py.strip value <> "" ->
  get_comment d fi (app.find_file_line_idx (DiffFile.lines f) line) = None ->
  exists self1 self2,
    app.on_input_submitted (commenting d fi p) value = Py.Ok self1 /\
    app.action_delete_comment self1 (Some (widget_at d fi p line)) = Py.Ok self2 /\
    app.diff self2 = d.
Proof.
  intros Hfile Hline Htext Hnone. do 2 eexists.
  split; [by apply (submit_on_target d fi p f line) |].
  set (q := app.find_file_line_idx (DiffFile.lines f) line) in *.
  unfold get_comment in Hnone. rewrite Hfile in Hnone. simpl in Hnone.
  unfold app.action_delete_comment, widget_at.
  cbn [app.editing app.line_to_file app.diff app.index app.diff_line
       app.current_line_idx app.edit_line_idx app.all_lines Diff.files].
  rewrite (line_to_file_target _ _ _ _ _ Hfile Hline). cbn [Py.bind].
  unfold Py.getitem.
  rewrite list_lookup_insert_eq by (by apply lookup_lt_Some in Hfile).
  cbn [Py.bind app.set_comment DiffFile.lines DiffFile.comments DiffFile.path].
  fold q.
  unfold Py.dict_contains, Py.dict_delitem. rewrite dict_get_set_eq.
  cbn [Py.bind]. split; [reflexivity |]. cbn [app.diff].
  rewrite dict_remove_set_fresh by done.
  rewrite list_insert_insert_eq, file_eta, list_insert_id by done.
  apply diff_eta.
Qed.

Lemma create_then_delete_restores_witness :
  exists self1 self2,
    app.on_input_submitted (commenting twin_diff 0 3) "typo" = Py.Ok self1 /\
    app.action_delete_comment self1 (Some (widget_at twin_diff 0 3 twin_line))
    = Py.Ok self2 /\
    app.diff self2 = twin_diff.
Proof.
  apply (create_then_delete_restores twin_diff 0 3 twin_file twin_line "typo").
  - reflexivity.
  - reflexivity.
  - discriminate.
  - reflexivity.
Defined.

(** X13: [e] on a line looks up the comment stored under the first
    position of the file whose record equals the line. With none there it
    changes nothing and opens no input; with one it starts an edit of the
    focused line with the input holding that comment's text, and submitting
    that text as it stands leaves the document as it was (for a comment that
    was made for the line). *)
Theorem edit_starts_from_the_stored_text
    (d : Diff.t) (fi p : nat) (f : DiffFile.t) (line : DiffLine.t) :
  Diff.files d !! fi = Some f ->
  DiffFile.lines f !! p = Some line ->
  match get_comment d fi (app.find_file_line_idx (DiffFile.lines f) line) with
  | None =>
      app.action_edit_comment (app.init d) (Some (widget_at d fi p line))
      = Py.Ok (app.init d, None)
  | Some c0 =>
      app.action_edit_comment (app.init d) (Some (widget_at d fi p line))
      = Py.Ok (commenting d fi p, Some (Comment.content c0)) /\
      (made_for f line c0 ->
       exists self2,
         app.on_input_submitted (commenting d fi p) (Comment.content c0)
         = Py.Ok self2 /\
         app.diff self2 = d)
  end.
Proof.
  intros Hfile Hline.
  rewrite (edit_on_target d fi p f line Hfile Hline).
  set (q := app.find_file_line_idx (DiffFile.lines f) line).
  unfold get_comment. rewrite Hfile. simpl.
  destruct (Py.dict_get (DiffFile.comments f) q) as [c0|] eqn:Hget; [| done].
  split; [done |]. intros (text & -> & Htrim & Hne). cbn [app.make_comment Comment.content].
  eexists. split.
  - apply (submit_on_target d fi p f line); [done | done | by rewrite Htrim].
  - cbn [app.diff]. fold q. rewrite Htrim.
    unfold app.set_comment. rewrite dict_set_same by done.
    rewrite file_eta, list_insert_id by done. apply diff_eta.
Qed.

Lemma edit_starts_from_the_stored_text_witness :
  app.action_edit_comment (app.init twin_annotated)
    (Some (widget_at twin_annotated 0 3 twin_line))
  = Py.Ok (commenting twin_annotated 0 3, Some "note") /\
  exists self2,
    app.on_input_submitted (commenting twin_annotated 0 3) "note" = Py.Ok self2 /\
    app.diff self2 = twin_annotated.
Proof.
  pose proof (edit_starts_from_the_stored_text twin_annotated 0 3
                twin_annotated_file twin_line eq_refl eq_refl) as Hedit.
  assert (get_comment twin_annotated 0
            (app.find_file_line_idx (DiffFile.lines twin_annotated_file) twin_line)
          = Some (Comment.Build "x" (Some 1%Z) "-1 +1" "note" "a")) as Hc
    by reflexivity.
  rewrite Hc in Hedit. destruct Hedit as [Hstart Hsubmit].
  split; [exact Hstart |]. apply Hsubmit.
  exists "note". repeat split. discriminate.
Defined.

(** X14: the comment a submission stores, under the first position of
    the target's file whose record equals the target line, names the path of
    the target's file, and its line number is the target's new-line number
    when that is present and not 0, and the old-line number when the new one
    is absent. *)
Theorem comment_names_file_and_line
    (d : Diff.t) (fi p : nat) (f : DiffFile.t) (line : DiffLine.t) (value : string) :
  Diff.files d !! fi = Some f ->
  DiffFile.lines f !! p = Some line ->
  Py.strip value <> "" ->
  exists self' c,
    app.on_input_submitted (commenting d fi p) value = Py.Ok self' /\
    get_comment (app.diff self') fi (app.find_file_line_idx (DiffFile.lines f) line)
    = Some c /\
    Comment.file c = DiffFile.path f /\
    (forall n, DiffLine.new_line_no line = Some n -> n <> 0%Z ->
       Comment.line_no c = Some n) /\
    (DiffLine.new_line_no line = None ->
     Comment.line_no c = DiffLine.old_line_no line).
Proof.
  intros Hfile Hline Htext.
  eexists. exists (app.make_comment f line (Py.strip value)).
  split; [by apply (submit_on_target d fi p f line) |]. cbn [app.diff].
  split; [by apply get_comment_after_set |]. split; [done |].
  cbn [app.make_comment Comment.line_no]. split.
  - intros n -> Hn. simpl. by destruct (Z.eqb_spec n 0).
  - by intros ->.
Qed.

Lemma comment_names_file_and_line_witness :
  exists self' c,
    app.on_input_submitted (commenting scenario_diff 0 2) "gone?" = Py.Ok self' /\
    get_comment (app.diff self') 0 2 = Some c /\
    Comment.file c = "x" /\
    Comment.line_no c = Some 2%Z.
Proof.
  destruct (comment_names_file_and_line scenario_diff 0 2
              (DiffFile.Build "x" scenario_lines Py.dict_empty)
              (DiffLine.Build "-" "line2" (Some 2%Z) None "x" "-1,2 +1,3") "gone?"
              eq_refl eq_refl)
    as (self' & c & Hrun & Hget & Hfile & _ & Hold).
  - discriminate.
  - exists self', c. split; [exact Hrun |]. split; [exact Hget |].
    split; [exact Hfile | exact (Hold eq_refl)].
Defined.

(** ** What a review session keeps true *)

Lemma made_for_path (f f' : DiffFile.t) (line : DiffLine.t) (c : Comment.t) :
  DiffFile.path f' = DiffFile.path f -> made_for f line c -> made_for f' line c.
Proof.
  intros Hpath (text & -> & Htrim & Hne). exists text.
  unfold app.make_comment. by rewrite Hpath.
Qed.

Lemma tidy_set_comment (f : DiffFile.t) (p : nat) (line : DiffLine.t) (text : string) :
  tidy_file f ->
  DiffFile.lines f !! p = Some line ->
  Py.strip text = text -> text <> "" ->
  tidy_file (app.set_comment f (app.find_file_line_idx (DiffFile.lines f) line)
               (app.make_comment f line text)).
Proof.
  intros [Hnodup Hmade] Hline Htrim Hne. split.
  - by apply dict_set_NoDup.
  - intros k c [[= -> ->] | Hin]%dict_set_elem.
    + exists line. split; [by apply (find_is_first _ p) |]. by exists text.
    + destruct (Hmade k c Hin) as (line0 & Hfirst0 & Hmade0).
      exists line0. split; [done |]. by apply (made_for_path f).
Qed.

Lemma tidy_remove_comment (f : DiffFile.t) (q : nat) :
  tidy_file f ->
  tidy_file (DiffFile.Build (DiffFile.path f) (DiffFile.lines f)
               (Py.dict_remove (DiffFile.comments f) q)).
Proof.
  intros [Hnodup Hmade]. split.
  - by apply dict_remove_NoDup.
  - intros k c Hin%dict_remove_elem.
    destruct (Hmade k c Hin) as (line0 & Hfirst0 & Hmade0).
    exists line0. split; [done |]. by apply (made_for_path f).
Qed.

Lemma session_step_submit
    (d : Diff.t) (fi p : nat) (f : DiffFile.t) (line : DiffLine.t) (value : string)
    (self' : app.DiffReviewApp) :
  Diff.files d !! fi = Some f -> DiffFile.lines f !! p = Some line ->
  app.on_input_submitted (commenting d fi p) value = Py.Ok self' ->
  tidy d -> tidy (app.diff self') /\ skeleton (app.diff self') = skeleton d.
Proof.
  intros Hfile Hline Hrun Htidy.
  destruct (decide (Py.strip value = "")) as [Hempty | Htext].
  - unfold commenting, app.action_create_comment, app.on_input_submitted in Hrun.
    rewrite init_unfold in Hrun. cbn in Hrun. rewrite Hempty in Hrun.
    cbn in Hrun. by inversion Hrun.
  - rewrite (submit_on_target d fi p f line) in Hrun by done.
    inversion Hrun; subst. cbn [app.diff]. split.
    + unfold tidy. cbn [Diff.files]. apply Forall_insert; [done |].
      apply (tidy_set_comment f p); [| done | by apply strip_strip | done].
      unfold tidy in Htidy. rewrite Forall_forall in Htidy.
      apply Htidy. by eapply list_elem_of_lookup_2.
    + by apply (skeleton_insert d fi f).
Qed.

Lemma session_step_delete
    (d : Diff.t) (fi p : nat) (f : DiffFile.t) (line : DiffLine.t)
    (self' : app.DiffReviewApp) :
  Diff.files d !! fi = Some f -> DiffFile.lines f !! p = Some line ->
  app.action_delete_comment (app.init d) (Some (widget_at d fi p line)) = Py.Ok self' ->
  tidy d -> tidy (app.diff self') /\ skeleton (app.diff self') = skeleton d.
Proof.
  intros Hfile Hline Hrun Htidy.
  rewrite (delete_on_target d fi p f line) in Hrun by done.
  destruct (Py.dict_contains _ _); inversion Hrun; subst; cbn [app.diff].
  - split.
    + unfold tidy. cbn [Diff.files]. apply Forall_insert; [done |].
      apply tidy_remove_comment.
      unfold tidy in Htidy. rewrite Forall_forall in Htidy.
      apply Htidy. by eapply list_elem_of_lookup_2.
    + by apply (skeleton_insert d fi f).
  - by rewrite init_unfold.
Qed.

(** X15: through a whole review session on a parsed document, whatever is
    submitted or deleted on whatever lines, each position of each file holds
    at most one comment, every comment sits at the first position of the
    line it was built from and has trimmed, non-empty text, and the paths and
    lines of the document stay those the parser produced. *)
Theorem session_keeps_the_document_tidy (diff_text : string) (d0 d : Diff.t) :
  parser.parse_diff diff_text = Py.Ok d0 ->
  session d0 d ->
  tidy d /\ skeleton d = skeleton d0.
Proof.
  intros Hparse Hsession. induction Hsession as
    [| d fi p f line value self' _ [IHtidy IHskel] Hfile Hline Hrun
     | d fi p f line self' _ [IHtidy IHskel] Hfile Hline Hrun].
  - split; [| done]. apply parse_diff_files_ok in Hparse.
    unfold tidy. eapply Forall_impl; [exact Hparse |].
    intros f [_ Hnone]. unfold tidy_file, commented. rewrite Hnone.
    split; [apply NoDup_nil_2 |]. intros k c Hin. by apply elem_of_nil in Hin.
  - destruct (session_step_submit d fi p f line value self') as [Ht Hs]; try done.
    split; [done | congruence].
  - destruct (session_step_delete d fi p f line self') as [Ht Hs]; try done.
    split; [done | congruence].
Qed.

Lemma session_keeps_the_document_tidy_witness :
  exists self',
    app.on_input_submitted (commenting scenario_diff 0 1) "ok" = Py.Ok self' /\
    tidy (app.diff self') /\
    skeleton (app.diff self') = skeleton scenario_diff.
Proof.
  eexists. split; [reflexivity |].
  apply (session_keeps_the_document_tidy scenario_text scenario_diff).
  - vm_compute. reflexivity.
  - eapply (session_submit scenario_diff scenario_diff 0 1 _ _ "ok");
      [apply session_start | reflexivity | reflexivity | reflexivity].
Defined.

(** ** The view *)

Lemma mount_lines_from
    (file : DiffFile.t) (ls : list DiffLine.t) (pos : nat) (ws : list app.mounted)
    (k : nat) :
  fold_left
    (fun (acc : list app.mounted * nat) (entry : nat * DiffLine.t) =>
       let ws := acc.1 ++ [app.LineWidget (app.Widget entry.2 acc.2)] in
       let ws :=
         match Py.dict_get (DiffFile.comments file) entry.1 with
         | Some comment => ws ++ [app.CommentWidget comment]
         | None => ws
         end in
       (ws, acc.2 + 1))
    (imap (fun i => pair (pos + i)) ls) (ws, k)
  = (ws ++ file_view (DiffFile.comments file) ls pos k, k + length ls).
Proof.
  revert pos ws k. induction ls as [|l ls IH]; intros pos ws k.
  - simpl. by rewrite app_nil_r, Nat.add_0_r.
  - rewrite imap_cons. cbn [fold_left].
    rewrite (imap_ext _ (fun i => pair (S pos + i)))
      by (intros; simpl; f_equal; lia).
    etrans; [apply IH |]. cbn [fst snd file_view length].
    rewrite Nat.add_0_r. f_equal; [| lia]. rewrite Nat.add_1_r.
    destruct (Py.dict_get (DiffFile.comments file) pos);
      by rewrite <- !app_assoc.
Qed.

Lemma mount_lines_spec (file : DiffFile.t) (ws : list app.mounted) (k : nat) :
  app.mount_lines file (ws, k)
  = (ws ++ file_view (DiffFile.comments file) (DiffFile.lines file) 0 k,
     k + length (DiffFile.lines file)).
Proof. apply (mount_lines_from file (DiffFile.lines file) 0). Qed.

(** The view is the files one after the other: header, then each line with
    its comment, if any, right below. *)
Lemma build_view_spec (d : Diff.t) : app.build_view d = view_from (Diff.files d) 0.
Proof.
  unfold app.build_view.
  enough (forall fs ws k,
             fold_left
               (fun (acc : list app.mounted * nat) file =>
                  app.mount_lines file
                    (acc.1 ++ [app.FileHeader (DiffFile.path file)], acc.2))
               fs (ws, k)
             = (ws ++ view_from fs k, k + length (flat_lines fs))) as H
    by (by rewrite H).
  induction fs as [|f fs IH]; intros ws k.
  - simpl. by rewrite app_nil_r, Nat.add_0_r.
  - cbn [fold_left fst snd view_from]. rewrite mount_lines_spec, IH.
    unfold flat_lines. rewrite fmap_cons. cbn [concat]. rewrite length_app.
    f_equal; [| lia]. by rewrite <- !app_assoc.
Qed.

Lemma file_view_lines (cs : Py.dict nat Comment.t) (ls : list DiffLine.t) (pos k : nat) :
  omap line_of (file_view cs ls pos k) = imap (fun i l => app.Widget l (k + i)) ls.
Proof.
  revert pos k. induction ls as [|l ls IH]; intros pos k; [done |].
  cbn [file_view omap list_omap line_of]. rewrite omap_app, IH, imap_cons.
  rewrite Nat.add_0_r. f_equal.
  destruct (Py.dict_get cs pos); simpl;
    apply imap_ext; intros; simpl; f_equal; lia.
Qed.

Lemma view_from_lines (fs : list DiffFile.t) (k : nat) :
  omap line_of (view_from fs k) = imap (fun i l => app.Widget l (k + i)) (flat_lines fs).
Proof.
  revert k. induction fs as [|f fs IH]; intros k; [done |].
  cbn [view_from omap list_omap line_of]. rewrite omap_app, file_view_lines, IH.
  unfold flat_lines. rewrite fmap_cons. cbn [concat]. rewrite imap_app.
  f_equal. apply imap_ext. intros. simpl. f_equal. lia.
Qed.

Lemma file_view_comments (cs : Py.dict nat Comment.t) (ls : list DiffLine.t) (pos k : nat) :
  omap comment_of (file_view cs ls pos k) = omap (Py.dict_get cs) (seq pos (length ls)).
Proof.
  revert pos k. induction ls as [|l ls IH]; intros pos k; [done |].
  cbn [file_view omap list_omap comment_of length seq]. rewrite omap_app, IH.
  by destruct (Py.dict_get cs pos).
Qed.

Lemma view_from_comments (fs : list DiffFile.t) (k : nat) :
  omap comment_of (view_from fs k)
  = f ← fs;
    omap (Py.dict_get (DiffFile.comments f)) (seq 0 (length (DiffFile.lines f))).
Proof.
  revert k. induction fs as [|f fs IH]; intros k; [done |].
  cbn [view_from omap list_omap comment_of].
  by rewrite omap_app, file_view_comments, IH, bind_cons.
Qed.

(** Every flattened index is the index of a position of a file. *)
Lemma flat_lines_lookup (files : list DiffFile.t) (i : nat) (l : DiffLine.t) :
  flat_lines files !! i = Some l ->
  exists fi f p,
    files !! fi = Some f /\ DiffFile.lines f !! p = Some l /\
    i = flat_index files fi p.
Proof.
  revert i. induction files as [|f fs IH]; intros i; [done |].
  unfold flat_lines. rewrite fmap_cons. cbn [concat]. intros Hi.
  apply lookup_app_Some in Hi as [Hi | [Hge Hi]].
  - exists 0, f, i. by repeat split.
  - apply IH in Hi as (fi & f' & p & Hf' & Hp & Heq).
    exists (S fi), f', p. split; [done |]. split; [done |].
    unfold flat_index, flat_lines in *. cbn [take]. rewrite fmap_cons.
    cbn [concat]. rewrite length_app. lia.
Qed.

Lemma blank_submission_Ok (self : app.DiffReviewApp) (value : string) :
  Py.strip value = "" -> exists self', app.on_input_submitted self value = Py.Ok self'.
Proof.
  intros Hempty. unfold app.on_input_submitted. rewrite Hempty.
  destruct (app.editing self), (app.edit_line_idx self); simpl; eauto.
Qed.

(** X16: the line widgets of the view, in order, are the lines of the
    document numbered from 0, so the index a widget carries finds the
    widget's own line; and pressing [c] on any line widget of the view and
    submitting whatever text never raises. *)
Theorem view_indices_are_valid (d : Diff.t) :
  omap line_of (app.build_view d)
  = imap (fun i l => app.Widget l i) (flat_lines (Diff.files d)) /\
  forall (w : app.DiffLineWidget) (value : string),
    app.LineWidget w ∈ app.build_view d ->
    app.all_lines (app.init d) !! app.index w = Some (app.diff_line w) /\
    exists self',
      app.on_input_submitted
        (app.action_create_comment (app.init d) (Some (app.index w))) value
      = Py.Ok self'.
Proof.
  assert (omap line_of (app.build_view d)
          = imap (fun i l => app.Widget l i) (flat_lines (Diff.files d))) as Hlines.
  { rewrite build_view_spec, view_from_lines. by apply imap_ext. }
  split; [done |]. intros w value Hw.
  assert (w ∈ omap line_of (app.build_view d)) as Hin
    by (apply list_elem_of_omap; by exists (app.LineWidget w)).
  rewrite Hlines in Hin. apply list_elem_of_lookup in Hin as [i Hi].
  apply list_lookup_imap_Some in Hi as (l & Hl & ->). cbn [app.index app.diff_line].
  split; [by rewrite init_unfold |].
  apply flat_lines_lookup in Hl as (fi & f & p & Hf & Hp & ->).
  fold (commenting d fi p).
  destruct (decide (Py.strip value = "")) as [Hempty | Htext].
  - by apply blank_submission_Ok.
  - eexists. by apply (submit_on_target d fi p f l).
Qed.

Lemma view_indices_are_valid_witness :
  exists self',
    app.on_input_submitted
      (app.action_create_comment (app.init scenario_diff) (Some 2)) "why?"
    = Py.Ok self'.
Proof.
  destruct (view_indices_are_valid scenario_diff) as [_ Hvalid].
  destruct (Hvalid (app.Widget
                      (DiffLine.Build "-" "line2" (Some 2%Z) None "x" "-1,2 +1,3") 2)
              "why?") as [_ Hrun]; [| exact Hrun].
  by apply (list_elem_of_lookup_2 _ 3).
Defined.

(** X17: the view is, file after file, the file's header and then its
    lines in order, each line widget followed at once by the comment widget
    of its position when the position has a comment. So on screen the
    comments come in line order: the comment widgets of the view, from top to
    bottom, are, file after file, the comments of the positions 0, 1, 2, ...
    of that file that have one; a comment stored under a position beyond the
    last line of its file is not shown. *)
Theorem view_shows_comments_in_line_order (d : Diff.t) :
  app.build_view d = view_from (Diff.files d) 0 /\
  omap comment_of (app.build_view d)
  = f ← Diff.files d;
    omap (Py.dict_get (DiffFile.comments f)) (seq 0 (length (DiffFile.lines f))).
Proof.
  split; [apply build_view_spec |].
  by rewrite build_view_spec, view_from_comments.
Qed.

(** ** The entry point *)

(** X18: [main] opens the review only on a document with at least one
    file, which takes a [+++] line in the text; and for a text that is not
    blank, has a [+++] line and keeps its hunk numbers within what [int()]
    converts, it does open the review, on the application built from the
    parsed document. *)
Theorem main_reviews_parsed_files (diff_text : string) :
  (forall a,
     copilotfeedback.main diff_text = Py.Ok (copilotfeedback.Review a) ->
     exists d,
       parser.parse_diff diff_text = Py.Ok d /\ a = app.init d /\
       Diff.files d <> [] /\
       0 < plus_lines (Py.split diff_text parser.LF)) /\
  (Py.strip diff_text <> "" ->
   0 < plus_lines (Py.split diff_text parser.LF) ->
   Forall short_numbers (Py.split diff_text parser.LF) ->
   exists d,
     parser.parse_diff diff_text = Py.Ok d /\
     copilotfeedback.main diff_text = Py.Ok (copilotfeedback.Review (app.init d))).
Proof.
  unfold copilotfeedback.main. split.
  - intros a. case_bool_decide as Hblank; [discriminate |].
    intros Hrun. apply bind_Ok in Hrun as (d & Hparse & Hrun).
    case_bool_decide as Hfiles; [discriminate |]. injection Hrun as <-.
    exists d. repeat split; try done.
    apply parse_diff_sections in Hparse as [_ Hzero].
    destruct (plus_lines _); [| lia]. by destruct Hfiles; apply Hzero.
  - intros Hblank Hplus Hshort.
    destruct (parse_diff_total diff_text Hshort) as [d Hparse].
    exists d. split; [done |].
    rewrite bool_decide_eq_false_2 by done. rewrite Hparse. cbn [Py.bind].
    rewrite bool_decide_eq_false_2; [done |].
    apply parse_diff_sections in Hparse as [_ Hzero]. intros Hnil.
    apply Hzero in Hnil. lia.
Qed.

Lemma main_reviews_parsed_files_witness :
  exists d,
    parser.parse_diff scenario_text = Py.Ok d /\
    copilotfeedback.main scenario_text
    = Py.Ok (copilotfeedback.Review (app.init d)).
Proof.
  destruct (main_reviews_parsed_files scenario_text) as [_ Hopens].
  apply Hopens.
  - discriminate.
  - vm_compute. lia.
  - apply scenario_short_numbers.
Defined.

(** ** The saved record *)

(** X19: the feedback record carries the given time stamp and the fixed
    label [git diff HEAD], and its comments are the stored comments and
    nothing else: file after file in document order, each file's in the
    order of its dictionary, one entry per stored comment with the comment's
    five fields. *)
Theorem feedback_lists_every_comment_once (now : string) (d : Diff.t) :
  Feedback.timestamp (output.generate_feedback now d) = now /\
  Feedback.diff_command (output.generate_feedback now d) = "git diff HEAD" /\
  Feedback.comments (output.generate_feedback now d)
  = (f ← Diff.files d; (fun item => output.entry_of item.2) <$> DiffFile.comments f) /\
  length (Feedback.comments (output.generate_feedback now d))
  = sum_list ((fun f => length (DiffFile.comments f)) <$> Diff.files d).
Proof.
  split; [done |]. split; [done |].
  cbn [output.generate_feedback Feedback.comments]. rewrite collect_entries.
  split; [done |]. unfold entries, Py.dict_items.
  induction (Diff.files d) as [|f fs IH]; [done |].
  rewrite bind_cons, length_app, length_fmap, IH. done.
Qed.

(** ** Where a comment can land *)

(** X20: a comment submitted from a line widget that can take the focus
    (no hunk header) is stored in the widget's file at a position at or
    before the widget's own: after the submission that position holds the
    comment built from the widget's line and the trimmed text, and the
    record at that position equals the widget's line, so the comment is
    never stored on a hunk-header record. *)
Theorem comment_lands_on_an_equal_code_line
    (d : Diff.t) (fi p : nat) (f : DiffFile.t) (line : DiffLine.t) (value : string) :
  Diff.files d !! fi = Some f ->
  DiffFile.lines f !! p = Some line ->
  Py.strip value <> "" ->
  app.can_focus (widget_at d fi p line) = true ->
  exists self' q,
    app.on_input_submitted (commenting d fi p) value = Py.Ok self' /\
    get_comment (app.diff self') fi q
    = Some (app.make_comment f line (Py.strip value)) /\
    q <= p /\
    DiffFile.lines f !! q = Some line /\
    DiffLine.line_type line <> "@".
Proof.
  intros Hfile Hline Htext Hfocus.
  exists (app.Build
            (Diff.Build
               (<[fi := app.set_comment f
                          (app.find_file_line_idx (DiffFile.lines f) line)
                          (app.make_comment f line (Py.strip value))]>
                  (Diff.files d)))
            0 false None (flat_lines (Diff.files d))
            (dense 0 (owners (Diff.files d)))),
    (app.find_file_line_idx (DiffFile.lines f) line).
  split; [by apply (submit_on_target d fi p f line) |]. cbn [app.diff].
  split; [by rewrite get_comment_after_set |].
  destruct (find_is_first (DiffFile.lines f) p line Hline) as [Hq Hmin].
  split; [| split; [done |]].
  - destruct (decide (app.find_file_line_idx (DiffFile.lines f) line <= p));
      [done |]. destruct (Hmin p); [lia | done].
  - unfold app.can_focus, widget_at in Hfocus. cbn [app.diff_line] in Hfocus.
    by apply negb_true_iff, bool_decide_eq_false in Hfocus.
Qed.

Lemma comment_lands_on_an_equal_code_line_witness :
  exists self' q,
    app.on_input_submitted (commenting twin_diff 0 3) "why?" = Py.Ok self' /\
    Comment.content <$> get_comment (app.diff self') 0 q = Some "why?" /\
    q <= 3 /\
    DiffFile.lines twin_file !! q = Some twin_line.
Proof.
  destruct (comment_lands_on_an_equal_code_line twin_diff 0 3 twin_file twin_line
              "why?" eq_refl eq_refl)
    as (self' & q & Hrun & Hget & Hle & Hq & _); [discriminate | reflexivity |].
  exists self', q. split; [exact Hrun |].
  split; [by rewrite Hget | by split].
Defined.

(** ** The order of the feedback *)

Lemma omap_ext_in {A B : Type} (f g : A -> option B) (l : list A) :
  (forall x, x ∈ l -> f x = g x) -> omap f l = omap g l.
Proof.
  induction l as [|x l IH]; intros Hext; [done |]. csimpl.
  rewrite (Hext x) by (by left). rewrite IH; [done |].
  intros y Hy. apply Hext. by right.
Qed.

Section DictKeys.
Context {K V : Type} `{EqDecision K}.
Implicit Types (d : Py.dict K V) (k : K).

Lemma dict_contains_keys d k : Py.dict_contains d k = bool_decide (k ∈ d.*1).
Proof.
  unfold Py.dict_contains. destruct (Py.dict_get d k) eqn:Hget; symmetry.
  - apply bool_decide_eq_true_2. destruct (decide (k ∈ d.*1)) as [Hin | Hout]; [done |].
    apply dict_get_None in Hout. congruence.
  - apply bool_decide_eq_false_2. by apply dict_get_None.
Qed.

Lemma filter_absent (l : list K) k : k ∉ l -> filter (fun x => x <> k) l = l.
Proof.
  induction l as [|x l IH]; [done |].
  intros [Hx Hl]%not_elem_of_cons.
  rewrite filter_cons_True by done. by rewrite IH.
Qed.

(** With each key held once, removing a key takes it out of the keys and
    keeps the others in their order. *)
Lemma dict_remove_keys d k :
  NoDup d.*1 -> (Py.dict_remove d k).*1 = filter (fun x => x <> k) d.*1.
Proof.
  induction d as [|[k0 v0] d IH]; [done |].
  cbn [Py.dict_remove fmap list_fmap fst].
  intros [Hk0 Hd]%NoDup_cons. destruct (decide (k0 = k)) as [-> | Hne].
  - rewrite filter_cons_False by (intros Hk; by apply Hk).
    by rewrite filter_absent.
  - rewrite filter_cons_True by done. cbn [fmap list_fmap fst]. by rewrite IH.
Qed.

Lemma dict_get_cons_other {B : Type} (g : V -> B) d k0 (v0 : V) (l : list K) :
  k0 ∉ l ->
  omap (fun k => g <$> Py.dict_get ((k0, v0) :: d) k) l
  = omap (fun k => g <$> Py.dict_get d k) l.
Proof.
  intros Hk0. apply omap_ext_in. intros x Hx. cbn [Py.dict_get].
  rewrite decide_False; [done |]. by intros ->.
Qed.

(** With each key held once, looking the keys up in their order gives the
    items in their order. *)
Lemma dict_items_by_keys {B : Type} (g : V -> B) d :
  NoDup d.*1 ->
  omap (fun k => g <$> Py.dict_get d k) d.*1 = (fun item => g item.2) <$> d.
Proof.
  induction d as [|[k0 v0] d IH]; [done |].
  cbn [fmap list_fmap fst snd]. intros [Hk0 Hd]%NoDup_cons.
  transitivity (g v0 :: omap (fun k => g <$> Py.dict_get ((k0, v0) :: d) k) d.*1).
  { csimpl. by rewrite decide_True by done. }
  f_equal. rewrite dict_get_cons_other by done. by apply IH.
Qed.

End DictKeys.

Lemma bind_by_index {A B : Type} (G : A -> list B) (H : nat -> list B) (xs : list A) :
  (forall i x, xs !! i = Some x -> G x = H i) ->
  (x ← xs; G x) = concat (imap (fun i _ => H i) xs).
Proof.
  revert H. induction xs as [|x xs IH]; intros H Hext; [done |].
  rewrite bind_cons, imap_cons. cbn [concat].
  rewrite (Hext 0 x) by done. f_equal.
  apply (IH (fun i => H (S i))). intros i y Hi. by apply (Hext (S i)).
Qed.

Lemma skeleton_lookup (d d' : Diff.t) (fi : nat) (f : DiffFile.t) :
  skeleton d' = skeleton d ->
  Diff.files d !! fi = Some f ->
  exists f', Diff.files d' !! fi = Some f' /\ DiffFile.lines f' = DiffFile.lines f.
Proof.
  intros Hskel Hf.
  assert (skeleton d' !! fi = Some (DiffFile.path f, DiffFile.lines f)) as Hlook
    by (rewrite Hskel; unfold skeleton; by rewrite list_lookup_fmap, Hf).
  unfold skeleton in Hlook. rewrite list_lookup_fmap in Hlook.
  destruct (Diff.files d' !! fi) as [f'|]; [| done].
  injection Hlook as _ Hlines. by exists f'.
Qed.

Lemma stored_at_skeleton (d d' : Diff.t) (fi p : nat) :
  skeleton d' = skeleton d -> stored_at d' fi p = stored_at d fi p.
Proof.
  intros Hskel. unfold stored_at.
  destruct (Diff.files d !! fi) as [f|] eqn:Hf.
  - destruct (skeleton_lookup d d' fi f Hskel Hf) as (f' & -> & ->). done.
  - destruct (Diff.files d' !! fi) as [f'|] eqn:Hf'; [| done].
    destruct (skeleton_lookup d' d fi f' (eq_sym Hskel) Hf') as (f & Hf0 & _).
    congruence.
Qed.

Lemma log_event_skeleton (d d' : Diff.t) (fi : nat) (keys : list nat) (e : event) :
  skeleton d' = skeleton d -> log_event d' fi keys e = log_event d fi keys e.
Proof.
  intros Hskel. destruct e as [fi0 p value | fi0 p]; unfold log_event;
    by rewrite (stored_at_skeleton d d' fi0 p Hskel).
Qed.

Lemma on_a_line_skeleton (d d' : Diff.t) (e : event) :
  skeleton d' = skeleton d -> on_a_line d e -> on_a_line d' e.
Proof.
  intros Hskel (f & line & Hf & Hline).
  destruct (skeleton_lookup d d' _ f Hskel Hf) as (f' & Hf' & Hlines).
  exists f', line. by rewrite Hlines.
Qed.

Lemma blank_submission_diff (d : Diff.t) (fi p : nat) (value : string) :
  Py.strip value = "" ->
  exists self',
    app.on_input_submitted (commenting d fi p) value = Py.Ok self' /\
    app.diff self' = d.
Proof.
  intros Hblank. unfold commenting, app.action_create_comment, app.on_input_submitted.
  rewrite init_unfold.
  cbn [app.editing app.edit_line_idx app.line_to_file app.all_lines app.diff
       app.current_line_idx].
  rewrite Hblank. rewrite bool_decide_eq_true_2 by done. eauto.
Qed.

(** One event of a session: it returns, keeps the paths and the lines, and
    moves the commented positions of each file as [log_event] says. *)
Lemma run_event_step (d : Diff.t) (e : event) :
  on_a_line d e ->
  exists d',
    run_event d e = Py.Ok d' /\
    skeleton d' = skeleton d /\
    forall fi f', Diff.files d' !! fi = Some f' ->
      exists f,
        Diff.files d !! fi = Some f /\
        (NoDup (commented f) ->
         NoDup (commented f') /\ commented f' = log_event d fi (commented f) e).
Proof.
  intros (f0 & line & Hf0 & Hline).
  destruct e as [fi0 p value | fi0 p]; cbn [event_file event_position] in *.
  - assert (stored_at d fi0 p = app.find_file_line_idx (DiffFile.lines f0) line) as Hq
      by (unfold stored_at; by rewrite Hf0, Hline).
    unfold run_event. destruct (decide (Py.strip value = "")) as [Hblank | Htext].
    + destruct (blank_submission_diff d fi0 p value Hblank) as (self' & -> & Hdiff).
      cbn [Py.bind]. rewrite Hdiff. exists d. split; [done |]. split; [done |].
      intros fi f' Hf'. exists f'. split; [done |]. intros Hnd. split; [done |].
      unfold log_event. rewrite (bool_decide_eq_true_2 (Py.strip value = "")) by done.
      by rewrite andb_false_r.
    + rewrite (submit_on_target d fi0 p f0 line value Hf0 Hline Htext).
      cbn [Py.bind app.diff]. eexists. split; [done |].
      split; [by apply (skeleton_insert d fi0 f0) |].
      intros fi f' Hf'. cbn [Diff.files] in Hf'.
      destruct (decide (fi = fi0)) as [-> | Hne].
      * rewrite list_lookup_insert_eq in Hf' by (by apply lookup_lt_Some in Hf0).
        injection Hf' as <-. exists f0. split; [done |]. intros Hnd.
        unfold commented, app.set_comment. cbn [DiffFile.comments].
        split; [by apply dict_set_NoDup |].
        rewrite dict_set_keys, dict_contains_keys. unfold log_event.
        rewrite (bool_decide_eq_true_2 (fi0 = fi0)) by done.
        rewrite (bool_decide_eq_false_2 (Py.strip value = "")) by done.
        cbn [negb andb]. by rewrite Hq.
      * rewrite list_lookup_insert_ne in Hf' by done.
        exists f'. split; [done |]. intros Hnd. split; [done |].
        unfold log_event. by rewrite (bool_decide_eq_false_2 (fi0 = fi)) by congruence.
  - assert (stored_at d fi0 p = app.find_file_line_idx (DiffFile.lines f0) line) as Hq
      by (unfold stored_at; by rewrite Hf0, Hline).
    unfold run_event, Py.getitem. rewrite Hf0. cbn [Py.bind].
    rewrite Hline. cbn [Py.bind].
    rewrite (delete_on_target d fi0 p f0 line Hf0 Hline). cbn [Py.bind].
    rewrite dict_contains_keys. case_bool_decide as Hin.
    + cbn [app.diff]. eexists. split; [done |].
      split; [by apply (skeleton_insert d fi0 f0) |].
      intros fi f' Hf'. cbn [Diff.files] in Hf'.
      destruct (decide (fi = fi0)) as [-> | Hne].
      * rewrite list_lookup_insert_eq in Hf' by (by apply lookup_lt_Some in Hf0).
        injection Hf' as <-. exists f0. split; [done |]. intros Hnd.
        unfold commented. cbn [DiffFile.comments].
        split; [by apply dict_remove_NoDup |].
        rewrite dict_remove_keys by done. unfold log_event.
        rewrite (bool_decide_eq_true_2 (fi0 = fi0)) by done. by rewrite Hq.
      * rewrite list_lookup_insert_ne in Hf' by done.
        exists f'. split; [done |]. intros Hnd. split; [done |].
        unfold log_event. by rewrite (bool_decide_eq_false_2 (fi0 = fi)) by congruence.
    + rewrite init_unfold. cbn [app.diff]. exists d. split; [done |]. split; [done |].
      intros fi f' Hf'. exists f'. split; [done |]. intros Hnd. split; [done |].
      unfold log_event. case_bool_decide as Hfi; [| done]. subst fi.
      assert (f' = f0) as -> by congruence.
      rewrite Hq. by rewrite filter_absent.
Qed.

(** A whole session on a parsed document returns, keeps the paths and the
    lines, and leaves in each file the positions in their order of creation,
    each once. *)
Lemma run_events_commented (diff_text : string) (es : list event) (d0 : Diff.t) :
  parser.parse_diff diff_text = Py.Ok d0 ->
  Forall (on_a_line d0) es ->
  exists d,
    run_events es d0 = Py.Ok d /\
    skeleton d = skeleton d0 /\
    forall fi f, Diff.files d !! fi = Some f ->
      NoDup (commented f) /\ commented f = creation_order d0 es fi.
Proof.
  intros Hparse. induction es as [|e es IH] using rev_ind; intros Hes.
  - exists d0. split; [done |]. split; [done |]. intros fi f Hf.
    apply parse_diff_files_ok in Hparse. rewrite Forall_forall in Hparse.
    destruct (Hparse f) as [_ Hnone]; [by eapply list_elem_of_lookup_2 |].
    unfold commented. rewrite Hnone. split; [apply NoDup_nil_2 | done].
  - apply Forall_app in Hes as [Hes He]. rewrite Forall_singleton in He.
    destruct (IH Hes) as (d & Hrun & Hskel & Hkeys).
    destruct (run_event_step d e) as (d' & Hstep & Hskel' & Hkeys');
      [by apply (on_a_line_skeleton d0) |].
    exists d'. unfold run_events in *. rewrite for_each_app, Hrun. cbn [Py.bind].
    split; [simpl; by rewrite Hstep |]. split; [congruence |].
    intros fi f' Hf'. destruct (Hkeys' fi f' Hf') as (f & Hf & Hnext).
    destruct (Hkeys fi f Hf) as [Hnd Horder].
    destruct (Hnext Hnd) as [Hnd' Horder']. split; [done |].
    unfold creation_order. rewrite fold_left_app. cbn [fold_left].
    fold (creation_order d0 es fi).
    by rewrite Horder', Horder, (log_event_skeleton d0 d).
Qed.

(** C1, as the code has it: a review session on a parsed document, each of
    its events on a line of the document, returns; and the record then
    written lists the comments file after file in document order, and within
    a file in the order in which its commented positions were created (a
    submission for a position without comment puts the position last, one
    for a position with a comment keeps its place, a deletion takes it out),
    where the position of a line is the first position of the file whose
    record equals it. The positions of a file need not come in increasing
    order. *)
Theorem feedback_follows_creation_order
    (now diff_text : string) (es : list event) (d0 : Diff.t) :
  parser.parse_diff diff_text = Py.Ok d0 ->
  Forall (on_a_line d0) es ->
  exists d,
    run_events es d0 = Py.Ok d /\
    (forall fi f, Diff.files d !! fi = Some f ->
       commented f = creation_order d0 es fi) /\
    Feedback.comments (output.generate_feedback now d)
    = concat
        (imap
           (fun fi _ =>
              omap (fun p => output.entry_of <$> get_comment d fi p)
                (creation_order d0 es fi))
           (Diff.files d)).
Proof.
  intros Hparse Hes.
  destruct (run_events_commented diff_text es d0 Hparse Hes)
    as (d & Hrun & _ & Hkeys).
  exists d. split; [done |]. split; [intros fi f Hf; by apply (Hkeys fi f) |].
  cbn [output.generate_feedback Feedback.comments]. rewrite collect_entries.
  unfold entries, Py.dict_items. apply bind_by_index.
  intros fi f Hf. destruct (Hkeys fi f Hf) as [Hnd <-].
  rewrite <- (dict_items_by_keys output.entry_of) by done.
  unfold commented. apply omap_ext_in.
  intros p _. unfold get_comment. by rewrite Hf.
Qed.

Lemma feedback_follows_creation_order_witness :
  exists d,
    run_events late_first_events scenario_diff = Py.Ok d /\
    creation_order scenario_diff late_first_events 0 = [3; 1] /\
    Feedback.comments (output.generate_feedback "now" d)
    = [ Entry.Build "x" (Some 2%Z) "-1,2 +1,3" "second" "line2b";
        Entry.Build "x" (Some 1%Z) "-1,2 +1,3" "first" "line1" ].
Proof.
  destruct (feedback_follows_creation_order "now" scenario_text late_first_events
              scenario_diff)
    as (d & Hrun & _ & Hfeedback).
  - vm_compute. reflexivity.
  - repeat constructor.
    + exists (DiffFile.Build "x" scenario_lines Py.dict_empty),
        (DiffLine.Build "+" "line2b" None (Some 2%Z) "x" "-1,2 +1,3").
      split; reflexivity.
    + exists (DiffFile.Build "x" scenario_lines Py.dict_empty),
        (DiffLine.Build " " "line1" (Some 1%Z) (Some 1%Z) "x" "-1,2 +1,3").
      split; reflexivity.
  - exists d. split; [exact Hrun |]. split; [reflexivity |].
    rewrite Hfeedback. vm_compute in Hrun. injection Hrun as <-.
    vm_compute. reflexivity.
Defined.
